(** * FormShare export tasks: a shallow embedding of
      [formshare/apps/viewer/tasks.py]

    The module dispatches export jobs to a task queue, runs one wrapper per
    export type around a black-box generator, deletes finished exports and
    mails a report on the Mongo synchronisation status.

    The embedding is a state-and-exception monad over a [World] made of the
    export table, the task-id counter and a chronological log of every
    observable action (row writes, generator calls, operator reports,
    queue submissions, mails). *)

From Stdlib Require Import Ascii.
From stdpp Require Import gmap strings list fin_maps pretty.

Open Scope Z_scope.
Open Scope string_scope.
Open Scope list_scope.

(** ** Python values and keyword arguments *)

Inductive value :=
| VNone
| VBool (b : bool)
| VInt (z : Z)
| VStr (s : string).

Global Instance value_eq_dec : EqDecision value.
Proof. solve_decision. Defined.

(** Python truth value of an object. *)
Definition truthy (v : value) : bool :=
  match v with
  | VNone => false
  | VBool b => b
  | VInt z => negb (Z.eqb z 0)
  | VStr s => negb (String.eqb s "")
  end.

(** ['%s' % v]. *)
Definition str (v : value) : string :=
  match v with
  | VNone => "None"
  | VBool true => "True"
  | VBool false => "False"
  | VInt z => pretty z
  | VStr s => s
  end.

(** A [dict] with string keys: the [options] mapping and the keyword
    arguments handed to a task. *)
Abbreviation kwargs := (gmap string value).

(** ** Exceptions *)

(** Raised objects, all of them instances of [Exception].  [Exception msg]
    stands for an instance of [Exception] itself or of any subclass that the
    module does not name.  Interrupts and exits, which derive from
    [BaseException] only, are not errors of a collaborator and are left
    out. *)
Inductive exn :=
| Exception (msg : string)
| NoRecordsFoundError
| ConnectionError
| DoesNotExist
| ExportTypeError
| TypeError.

Global Instance exn_eq_dec : EqDecision exn.
Proof. solve_decision. Defined.

(** The classes that occur in the [except] clauses of the module. *)
Inductive exc_class :=
| cException
| cNoRecordsFoundError
| cConnectionError
| cDoesNotExist.

Definition isinstance (e : exn) (c : exc_class) : bool :=
  match c, e with
  | cException, _ => true
  | cNoRecordsFoundError, NoRecordsFoundError => true
  | cConnectionError, ConnectionError => true
  | cDoesNotExist, DoesNotExist => true
  | _, _ => false
  end.

(** [except (c1, ..., cn)]. *)
Definition catches (cs : list exc_class) (e : exn) : bool :=
  existsb (isinstance e) cs.

Inductive Result (A : Type) :=
| Ok (a : A)
| Raise (e : exn).
Arguments Ok {A} a.
Arguments Raise {A} e.

(** ** The export table *)

Record User := { username : string }.
Record XForm := { user : User; id_string : string }.

(** [Export.*_EXPORT]; [OTHER_EXPORT s] is any value outside the constants
    the dispatcher tests for. *)
Inductive ExportType :=
| XLS_EXPORT
| GDOC_EXPORT
| CSV_EXPORT
| CSV_ZIP_EXPORT
| SAV_ZIP_EXPORT
| ZIP_EXPORT
| KML_EXPORT
| EXTERNAL_EXPORT
| OTHER_EXPORT (name : string).

Global Instance ExportType_eq_dec : EqDecision ExportType.
Proof. solve_decision. Defined.

(** Modelled from the spec: the [Export] model class is not part of the
    sources; a record is PENDING at creation and FAILED is the only status
    the tasks write. *)
Inductive Status := PENDING | FAILED.

Global Instance Status_eq_dec : EqDecision Status.
Proof. solve_decision. Defined.

(** The columns of a row of the export table. *)
Record ExportRow := {
  row_xform : XForm;
  row_export_type : ExportType;
  row_internal_status : Status;
  row_task_id : option nat
}.

(** An [Export] model object: a row together with its primary key. *)
Record Export := {
  id : Z;
  row : ExportRow
}.

Definition xform (e : Export) : XForm := row_xform (row e).
Definition export_type (e : Export) : ExportType := row_export_type (row e).
Definition internal_status (e : Export) : Status :=
  row_internal_status (row e).
Definition task_id (e : Export) : option nat := row_task_id (row e).

(** [export.internal_status = s] *)
Definition set_internal_status (s : Status) (e : Export) : Export :=
  {| id := id e;
     row := {| row_xform := xform e; row_export_type := export_type e;
               row_internal_status := s; row_task_id := task_id e |} |}.

(** [export.task_id = t] *)
Definition set_task_id (t : nat) (e : Export) : Export :=
  {| id := id e;
     row := {| row_xform := xform e; row_export_type := export_type e;
               row_internal_status := internal_status e;
               row_task_id := Some t |} |}.

(** ** Tasks, generator calls and the log *)

Inductive job :=
| CREATE_XLS_EXPORT
| CREATE_CSV_EXPORT
| CREATE_KML_EXPORT
| CREATE_ZIP_EXPORT
| CREATE_CSV_ZIP_EXPORT
| CREATE_SAV_ZIP_EXPORT
| CREATE_EXTERNAL_EXPORT
| DELETE_EXPORT.

Global Instance job_eq_dec : EqDecision job.
Proof. solve_decision. Defined.

(** One constructor per generator of [export_tools], with the positional
    arguments of the call. *)
Inductive gen_call :=
| Generate_export (t : ExportType) (ext : string)
    (username id_string : value) (export_id : Z)
    (query group_delimiter split_select_multiples
       binary_select_multiples : value)
| Generate_kml_export (t : ExportType) (ext : string)
    (username id_string : value) (export_id : Z) (query : value)
| Generate_attachments_zip_export (t : ExportType) (ext : string)
    (username id_string : value) (export_id : Z) (query : value)
| Generate_external_export (t : ExportType)
    (username id_string : value) (export_id : Z)
    (token query meta : value).

Record AsyncResult := { result_task_id : nat }.

Inductive event :=
| EvCreate (e : Export)
| EvSave (e : Export)
| EvDelete (i : Z)
| EvGenerate (c : gen_call)
| EvReport (subject : string) (e : exn) (with_exc_info : bool)
| EvSubmit (j : job) (kw : kwargs) (countdown : Z) (tid : nat)
| EvProbe (remongo : bool)
| EvMail (subject body : string).

Record World := {
  store : gmap Z ExportRow;
  next_task : nat;
  log : list event
}.

(** [django.conf.settings], with the queue's own switch that decides
    whether an eagerly run task re-raises into its caller. *)
Record Settings := {
  CELERY_ALWAYS_EAGER : bool;
  CELERY_EAGER_PROPAGATES_EXCEPTIONS : bool;
  TESTING_MODE : bool;
  ZIP_EXPORT_COUNTDOWN : Z
}.

(** The routines the module imports and treats as black boxes: the
    generators may read and write the export table and either return the
    generated export or raise; the synchronisation probe returns its report
    or raises. *)
Record Collaborators := {
  generate :
    gen_call -> gmap Z ExportRow -> Result Export * gmap Z ExportRow;
  mongo_sync_status : bool -> Result string
}.

(** ** The monad *)

Definition M (A : Type) : Type := World -> Result A * World.

Definition ret {A} (a : A) : M A := fun w => (Ok a, w).

Definition raise {A} (e : exn) : M A := fun w => (Raise e, w).

Definition bind {A B} (c : M A) (k : A -> M B) : M B :=
  fun w =>
    match c w with
    | (Ok a, w') => k a w'
    | (Raise e, w') => (Raise e, w')
    end.

Notation "x <- c ;; k" := (bind c (fun x => k))
  (at level 100, c at next level, right associativity).
Notation "c ;;; k" := (bind c (fun _ => k))
  (at level 100, right associativity).

(** [try: body / except ...: handler / else: orelse].  [handler e] is
    [None] when no clause matches [e]; the [else] suite runs outside the
    protection of the clauses. *)
Definition try_except_else {A B}
    (body : M A) (handler : exn -> option (M B)) (orelse : A -> M B) : M B :=
  fun w =>
    match body w with
    | (Ok a, w') => orelse a w'
    | (Raise e, w') =>
        match handler e with
        | Some h => h w'
        | None => (Raise e, w')
        end
    end.

Definition emit (ev : event) : M unit :=
  fun w => (Ok tt, {| store := store w; next_task := next_task w;
                      log := log w ++ [ev] |}).

Definition with_store (s : gmap Z ExportRow) (w : World) : World :=
  {| store := s; next_task := next_task w; log := log w |}.

(** ** The record store ([Export.objects], [save], [delete]) *)

(** The key given to a new row: one more than the largest key in use. *)
Definition new_id (s : gmap Z ExportRow) : Z :=
  Z.succ (foldr Z.max 0 ((map_to_list s).*1)).

Definition Export_objects_create (xf : XForm) (t : ExportType) : M Export :=
  fun w =>
    let e := {| id := new_id (store w);
                row := {| row_xform := xf; row_export_type := t;
                          row_internal_status := PENDING;
                          row_task_id := None |} |} in
    (Ok e, {| store := <[id e := row e]> (store w);
              next_task := next_task w;
              log := log w ++ [EvCreate e] |}).

Definition Export_objects_get (i : Z) : M Export :=
  fun w =>
    match store w !! i with
    | Some r => (Ok {| id := i; row := r |}, w)
    | None => (Raise DoesNotExist, w)
    end.

Definition Export_save (e : Export) : M unit :=
  fun w => (Ok tt, {| store := <[id e := row e]> (store w);
                      next_task := next_task w;
                      log := log w ++ [EvSave e] |}).

Definition Export_delete (e : Export) : M unit :=
  fun w => (Ok tt, {| store := delete (id e) (store w);
                      next_task := next_task w;
                      log := log w ++ [EvDelete (id e)] |}).

(** ** Calling a task with keyword arguments *)

(** A call with a keyword dict binds only when every required parameter is given and no
    key is foreign to the signature; Python raises [TypeError] otherwise. *)
Definition accepts (required optional : list string) (kw : kwargs) : bool :=
  forallb (fun k => bool_decide (is_Some (kw !! k))) required
  && forallb (fun k => bool_decide (k ∈ required ++ optional))
             ((map_to_list kw).*1).

(** A parameter with a default value. *)
Definition arg (kw : kwargs) (k : string) (dflt : value) : value :=
  default dflt (kw !! k).

(** Record keys are integers. *)
Definition arg_export_id (kw : kwargs) : M Z :=
  match kw !! "export_id" with
  | Some (VInt i) => ret i
  | _ => raise TypeError
  end.

(** ** The dispatcher's reading of [options] *)

(** Truth value of [options]: neither [None] nor an empty dict. *)
Definition dict_truthy (options : option kwargs) : bool :=
  match options with
  | Some o => negb (bool_decide (o = ∅))
  | None => false
  end.

(** [if options and k in options: arguments[k] = options[k]]. *)
Definition copy_option (options : option kwargs) (k : string)
    (arguments : kwargs) : kwargs :=
  if dict_truthy options then
    match options ≫= (fun o => o !! k) with
    | Some v => <[k := v]> arguments
    | None => arguments
    end
  else arguments.

Section Tasks.

Context (settings : Settings) (col : Collaborators).

(** A call of one of the imported generators. *)
Definition call_generator (c : gen_call) : M Export :=
  emit (EvGenerate c) ;;;
  fun w => let '(r, s) := generate col c (store w) in (r, with_store s w).

(** [logger_tools.report_exception(subject, info, exc_info)]: one report
    to the operators. *)
Definition report_exception (subject : string) (e : exn)
    (with_exc_info : bool) : M unit :=
  emit (EvReport subject e with_exc_info).

Definition mail_admins (subject body : string) : M unit :=
  emit (EvMail subject body).

(** [task.apply_async((), kw, countdown=n)].  The submission is logged
    with a new task id.  When the queue runs eagerly the task body [run]
    executes before the call returns, and what it raises is kept in the
    result unless the queue is set to propagate. *)
Definition apply_async (run : kwargs -> M value) (j : job) (kw : kwargs)
    (countdown : Z) : M AsyncResult :=
  fun w =>
    let tid := next_task w in
    let w1 := {| store := store w; next_task := S tid;
                 log := log w ++ [EvSubmit j kw countdown tid] |} in
    let result := {| result_task_id := tid |} in
    if CELERY_ALWAYS_EAGER settings then
      match run kw w1 with
      | (Ok _, w2) => (Ok result, w2)
      | (Raise e, w2) =>
          if CELERY_EAGER_PROPAGATES_EXCEPTIONS settings
          then (Raise e, w2) else (Ok result, w2)
      end
    else (Ok result, w1).

(** *** [delete_export] *)

Definition delete_export (export_id : Z) : M bool :=
  try_except_else (Export_objects_get export_id)
    (fun e => if catches [cDoesNotExist] e
              then Some (ret false) else None)
    (fun export => Export_delete export ;;; ret true).

Definition run_delete_export (kw : kwargs) : M value :=
  if accepts ["export_id"] [] kw then
    export_id <- arg_export_id kw ;;
    b <- delete_export export_id ;;
    ret (VBool b)
  else raise TypeError.

(** *** The wrappers *)

Definition subject_of (label : string) (export_id : Z)
    (username id_string : value) : string :=
  label +:+ " Export Exception: Export ID - " +:+ pretty export_id
        +:+ ", /" +:+ str username +:+ "/" +:+ str id_string.

(** The suite shared by the reporting [except] clauses: mark FAILED, save,
    report, re-raise. *)
Definition fail_and_report (export : Export) (label : string)
    (export_id : Z) (username id_string : value) (e : exn)
    (with_exc_info : bool) : M value :=
  let export := set_internal_status FAILED export in
  Export_save export ;;;
  report_exception (subject_of label export_id username id_string) e
                   with_exc_info ;;;
  raise e.

Definition create_xls_export (username id_string : value) (export_id : Z)
    (query force_xlsx group_delimiter split_select_multiples
       binary_select_multiples : value) : M value :=
  let ext := if negb (truthy force_xlsx) then "xls" else "xlsx" in
  try_except_else (Export_objects_get export_id)
    (fun e => if catches [cDoesNotExist] e
              then Some (ret VNone) else None)
    (fun export =>
       try_except_else
         (call_generator
            (Generate_export XLS_EXPORT ext username id_string export_id
               query group_delimiter split_select_multiples
               binary_select_multiples))
         (fun e =>
            if catches [cException; cNoRecordsFoundError] e then
              Some (fail_and_report export "XLS" export_id username
                      id_string e true)
            else None)
         (fun gen_export => ret (VInt (id gen_export)))).

Definition create_csv_export (username id_string : value) (export_id : Z)
    (query group_delimiter split_select_multiples
       binary_select_multiples : value) : M value :=
  export <- Export_objects_get export_id ;;
  try_except_else
    (call_generator
       (Generate_export CSV_EXPORT "csv" username id_string export_id
          query group_delimiter split_select_multiples
          binary_select_multiples))
    (fun e =>
       if catches [cNoRecordsFoundError] e then
         Some (let export := set_internal_status FAILED export in
               Export_save export ;;;
               ret VNone)
       else if catches [cException] e then
         Some (fail_and_report export "CSV" export_id username
                 id_string e true)
       else None)
    (fun gen_export => ret (VInt (id gen_export))).

Definition create_kml_export (username id_string : value) (export_id : Z)
    (query : value) : M value :=
  export <- Export_objects_get export_id ;;
  try_except_else
    (call_generator
       (Generate_kml_export KML_EXPORT "kml" username id_string export_id
          query))
    (fun e =>
       if catches [cException; cNoRecordsFoundError] e then
         Some (fail_and_report export "KML" export_id username
                 id_string e true)
       else None)
    (fun gen_export => ret (VInt (id gen_export))).

Definition create_zip_export (username id_string : value) (export_id : Z)
    (query : value) : M value :=
  export <- Export_objects_get export_id ;;
  try_except_else
    (call_generator
       (Generate_attachments_zip_export ZIP_EXPORT "zip" username id_string
          export_id query))
    (fun e =>
       if catches [cException; cNoRecordsFoundError] e then
         Some (fail_and_report export "Zip" export_id username
                 id_string e false)
       else None)
    (fun gen_export =>
       (if negb (TESTING_MODE settings) then
          apply_async run_delete_export DELETE_EXPORT
            {[ "export_id" := VInt (id gen_export) ]}
            (ZIP_EXPORT_COUNTDOWN settings) ;;;
          ret tt
        else ret tt) ;;;
       ret (VInt (id gen_export))).

Definition create_csv_zip_export (username id_string : value)
    (export_id : Z)
    (query group_delimiter split_select_multiples
       binary_select_multiples : value) : M value :=
  export <- Export_objects_get export_id ;;
  try_except_else
    (call_generator
       (Generate_export CSV_ZIP_EXPORT "zip" username id_string export_id
          query group_delimiter split_select_multiples
          binary_select_multiples))
    (fun e =>
       if catches [cException; cNoRecordsFoundError] e then
         Some (fail_and_report export "CSV ZIP" export_id username
                 id_string e true)
       else None)
    (fun gen_export => ret (VInt (id gen_export))).

Definition create_sav_zip_export (username id_string : value)
    (export_id : Z)
    (query group_delimiter split_select_multiples
       binary_select_multiples : value) : M value :=
  export <- Export_objects_get export_id ;;
  try_except_else
    (call_generator
       (Generate_export SAV_ZIP_EXPORT "zip" username id_string export_id
          query group_delimiter split_select_multiples
          binary_select_multiples))
    (fun e =>
       if catches [cException; cNoRecordsFoundError] e then
         Some (fail_and_report export "SAV ZIP" export_id username
                 id_string e true)
       else None)
    (fun gen_export => ret (VInt (id gen_export))).

Definition create_external_export (username id_string : value)
    (export_id : Z) (query token meta : value) : M value :=
  export <- Export_objects_get export_id ;;
  try_except_else
    (call_generator
       (Generate_external_export EXTERNAL_EXPORT username id_string
          export_id token query meta))
    (fun e =>
       if catches [cException; cNoRecordsFoundError; cConnectionError] e
       then
         Some (fail_and_report export "External" export_id username
                 id_string e true)
       else None)
    (fun gen_export => ret (VInt (id gen_export))).

(** *** Running a queued task: binding its keyword arguments *)

Definition tabular_optional : list string :=
  ["query"; "group_delimiter"; "split_select_multiples";
   "binary_select_multiples"].

Definition run_job (j : job) (kw : kwargs) : M value :=
  let required := ["username"; "id_string"; "export_id"] in
  let username := arg kw "username" VNone in
  let id_string := arg kw "id_string" VNone in
  let query := arg kw "query" VNone in
  let group_delimiter := arg kw "group_delimiter" (VStr "/") in
  let split_select_multiples :=
    arg kw "split_select_multiples" (VBool true) in
  let binary_select_multiples :=
    arg kw "binary_select_multiples" (VBool false) in
  match j with
  | CREATE_XLS_EXPORT =>
      if accepts required ("force_xlsx" :: tabular_optional) kw then
        export_id <- arg_export_id kw ;;
        create_xls_export username id_string export_id query
          (arg kw "force_xlsx" (VBool true)) group_delimiter
          split_select_multiples binary_select_multiples
      else raise TypeError
  | CREATE_CSV_EXPORT =>
      if accepts required tabular_optional kw then
        export_id <- arg_export_id kw ;;
        create_csv_export username id_string export_id query
          group_delimiter split_select_multiples binary_select_multiples
      else raise TypeError
  | CREATE_KML_EXPORT =>
      if accepts required ["query"] kw then
        export_id <- arg_export_id kw ;;
        create_kml_export username id_string export_id query
      else raise TypeError
  | CREATE_ZIP_EXPORT =>
      if accepts required ["query"] kw then
        export_id <- arg_export_id kw ;;
        create_zip_export username id_string export_id query
      else raise TypeError
  | CREATE_CSV_ZIP_EXPORT =>
      if accepts required tabular_optional kw then
        export_id <- arg_export_id kw ;;
        create_csv_zip_export username id_string export_id query
          group_delimiter split_select_multiples binary_select_multiples
      else raise TypeError
  | CREATE_SAV_ZIP_EXPORT =>
      if accepts required tabular_optional kw then
        export_id <- arg_export_id kw ;;
        create_sav_zip_export username id_string export_id query
          group_delimiter split_select_multiples binary_select_multiples
      else raise TypeError
  | CREATE_EXTERNAL_EXPORT =>
      if accepts required ["query"; "token"; "meta"] kw then
        export_id <- arg_export_id kw ;;
        create_external_export username id_string export_id query
          (arg kw "token" VNone) (arg kw "meta" VNone)
      else raise TypeError
  | DELETE_EXPORT => run_delete_export kw
  end.

(** *** [create_async_export] *)

Definition create_async_export (xform : XForm) (export_type : ExportType)
    (query force_xlsx : value) (options : option kwargs)
  : M (option (Export * AsyncResult)) :=
  let username := username (user xform) in
  let id_string := id_string xform in
  export <- Export_objects_create xform export_type ;;
  let arguments : kwargs :=
    {[ "username" := VStr username;
       "id_string" := VStr id_string;
       "export_id" := VInt (id export);
       "query" := query ]} in
  result <-
    (if bool_decide (export_type ∈ [XLS_EXPORT; GDOC_EXPORT; CSV_EXPORT;
                                    CSV_ZIP_EXPORT; SAV_ZIP_EXPORT]) then
       let arguments := copy_option options "group_delimiter" arguments in
       let arguments :=
         copy_option options "split_select_multiples" arguments in
       let arguments :=
         copy_option options "binary_select_multiples" arguments in
       if bool_decide (export_type ∈ [XLS_EXPORT; GDOC_EXPORT]) then
         r <- apply_async (run_job CREATE_XLS_EXPORT) CREATE_XLS_EXPORT
                arguments 10 ;;
         ret (Some r)
       else if bool_decide (export_type = CSV_EXPORT) then
         r <- apply_async (run_job CREATE_CSV_EXPORT) CREATE_CSV_EXPORT
                arguments 10 ;;
         ret (Some r)
       else if bool_decide (export_type = CSV_ZIP_EXPORT) then
         r <- apply_async (run_job CREATE_CSV_ZIP_EXPORT)
                CREATE_CSV_ZIP_EXPORT arguments 10 ;;
         ret (Some r)
       else if bool_decide (export_type = SAV_ZIP_EXPORT) then
         r <- apply_async (run_job CREATE_SAV_ZIP_EXPORT)
                CREATE_SAV_ZIP_EXPORT arguments 10 ;;
         ret (Some r)
       else raise ExportTypeError
     else if bool_decide (export_type = ZIP_EXPORT) then
       r <- apply_async (run_job CREATE_ZIP_EXPORT) CREATE_ZIP_EXPORT
              arguments 10 ;;
       ret (Some r)
     else if bool_decide (export_type = KML_EXPORT) then
       r <- apply_async (run_job CREATE_KML_EXPORT) CREATE_KML_EXPORT
              arguments 10 ;;
       ret (Some r)
     else if bool_decide (export_type = EXTERNAL_EXPORT) then
       let arguments := copy_option options "token" arguments in
       let arguments := copy_option options "meta" arguments in
       r <- apply_async (run_job CREATE_EXTERNAL_EXPORT)
              CREATE_EXTERNAL_EXPORT arguments 10 ;;
       ret (Some r)
     else raise ExportTypeError) ;;
  match result with
  | Some result =>
      export <- (if CELERY_ALWAYS_EAGER settings
                 then Export_objects_get (id export)
                 else ret export) ;;
      let export := set_task_id (result_task_id result) export in
      Export_save export ;;;
      ret (Some (export, result))
  | None => ret None
  end.

End Tasks.

(** ** Regular expressions: the fragment [REMONGO_PATTERN] is written in *)

Inductive regex :=
| Lit (s : string)          (* a run of literal characters *)
| Cls (lo hi : ascii)       (* [lo-hi] *)
| Opt (r : regex)           (* r? *)
| Plus (r : regex)          (* r+ *)
| Seq (r1 r2 : regex).

Definition code (c : ascii) : N := N_of_ascii c.

Definition in_range (lo hi c : ascii) : bool :=
  (code lo <=? code c)%N && (code c <=? code hi)%N.

(** ASCII case folding, as [re.IGNORECASE] does on byte strings. *)
Definition lower (c : ascii) : ascii :=
  if in_range "A"%char "Z"%char c then ascii_of_N (code c + 32) else c.

Definition upper (c : ascii) : ascii :=
  if in_range "a"%char "z"%char c then ascii_of_N (code c - 32) else c.

Definition chr_eq (ignorecase : bool) (c d : ascii) : bool :=
  if ignorecase then Ascii.eqb (lower c) (lower d) else Ascii.eqb c d.

Definition cls_mem (ignorecase : bool) (lo hi c : ascii) : bool :=
  in_range lo hi c
  || (ignorecase && (in_range lo hi (lower c) || in_range lo hi (upper c))).

(** The literal [p] at the head of [s]: what is left of [s] after it. *)
Fixpoint match_lit (ignorecase : bool) (p s : string) : option string :=
  match p, s with
  | EmptyString, _ => Some s
  | String c p', String d s' =>
      if chr_eq ignorecase c d then match_lit ignorecase p' s' else None
  | String _ _, EmptyString => None
  end.

(** Repetition of [step] one or more times; [fuel] bounds the number of
    rounds and a round that consumes nothing is not repeated. *)
Fixpoint iter_plus (step : string -> list string) (fuel : nat) (s : string)
  : list string :=
  match fuel with
  | O => []
  | S fuel' =>
      flat_map
        (fun s1 =>
           s1 :: (if (String.length s1 <? String.length s)%nat
                  then iter_plus step fuel' s1 else []))
        (step s)
  end.

(** All the ways [r] matches at the head of [s], each given by the rest of
    [s] after the match. *)
Fixpoint rmatch (ignorecase : bool) (r : regex) (s : string) : list string :=
  match r with
  | Lit p =>
      match match_lit ignorecase p s with
      | Some rest => [rest]
      | None => []
      end
  | Cls lo hi =>
      match s with
      | String c s' => if cls_mem ignorecase lo hi c then [s'] else []
      | EmptyString => []
      end
  | Opt r1 => rmatch ignorecase r1 s ++ [s]
  | Plus r1 => iter_plus (rmatch ignorecase r1) (S (String.length s)) s
  | Seq r1 r2 =>
      flat_map (rmatch ignorecase r2) (rmatch ignorecase r1 s)
  end.

Definition matches_at (ignorecase : bool) (r : regex) (s : string) : bool :=
  match rmatch ignorecase r s with
  | [] => false
  | _ :: _ => true
  end.

(** [pattern.search(s)]: a match starting at some position of [s]. *)
Fixpoint search (ignorecase : bool) (r : regex) (s : string) : bool :=
  matches_at ignorecase r s
  || match s with
     | String _ s' => search ignorecase r s'
     | EmptyString => false
     end.

(** A string with its letters folded to lower case. *)
Fixpoint casefold (s : string) : string :=
  match s with
  | EmptyString => EmptyString
  | String c s' => String (lower c) (casefold s')
  end.

(** ** The synchronisation report *)

Definition SYNC_MONGO_MANUAL_INSTRUCTIONS : string :=
"
To re-sync manually, ssh into the server and run:

python manage.py sync_mongo -r [username] [id_string]--settings='settings.local_settings'

To force complete delete and re-creation, use the -a option:

python manage.py sync_mongo -ra [username] [id_string]--settings='settings.local_settings'
".

(** [r'Total # of records to remongo: -?[1-9]+'] *)
Definition REMONGO_PATTERN : regex :=
  Seq (Lit "Total # of records to remongo: ")
      (Seq (Opt (Lit "-")) (Plus (Cls "1"%char "9"%char))).

(** Compiled with [re.IGNORECASE]. *)
Definition REMONGO_PATTERN_search (s : string) : bool :=
  search true REMONGO_PATTERN s.

Definition newline : string := String (ascii_of_N 10) EmptyString.

(** [sep.join(l)] *)
Definition join (sep : string) (l : list string) : string :=
  String.concat sep l.

Section SyncStatus.

Context (col : Collaborators).

(** A call of the imported probe [mongo_sync_status(remongo=...)]. *)
Definition call_mongo_sync_status (remongo : bool) : M string :=
  emit (EvProbe remongo) ;;;
  fun w => (mongo_sync_status col remongo, w).

Definition email_mongo_sync_status : M value :=
  before_report <- call_mongo_sync_status false ;;
  after_report <-
    (if REMONGO_PATTERN_search before_report
     then call_mongo_sync_status true
     else ret "No synchronization needed") ;;
  mail_admins "Mongo DB sync status"
    (join (newline +:+ newline)
          [before_report; after_report; SYNC_MONGO_MANUAL_INSTRUCTIONS]) ;;;
  ret VNone.

End SyncStatus.

(** ** A uniform view of the seven wrappers *)

(** A call of one wrapper with its positional arguments. *)
Inductive wrapper_call :=
| Call_xls (username id_string : value) (export_id : Z)
    (query force_xlsx group_delimiter split_select_multiples
       binary_select_multiples : value)
| Call_csv (username id_string : value) (export_id : Z)
    (query group_delimiter split_select_multiples
       binary_select_multiples : value)
| Call_kml (username id_string : value) (export_id : Z) (query : value)
| Call_zip (username id_string : value) (export_id : Z) (query : value)
| Call_csv_zip (username id_string : value) (export_id : Z)
    (query group_delimiter split_select_multiples
       binary_select_multiples : value)
| Call_sav_zip (username id_string : value) (export_id : Z)
    (query group_delimiter split_select_multiples
       binary_select_multiples : value)
| Call_external (username id_string : value) (export_id : Z)
    (query token meta : value).

Definition invoke (settings : Settings) (col : Collaborators)
    (c : wrapper_call) : M value :=
  match c with
  | Call_xls u s i q f g sp b => create_xls_export col u s i q f g sp b
  | Call_csv u s i q g sp b => create_csv_export col u s i q g sp b
  | Call_kml u s i q => create_kml_export col u s i q
  | Call_zip u s i q => create_zip_export settings col u s i q
  | Call_csv_zip u s i q g sp b => create_csv_zip_export col u s i q g sp b
  | Call_sav_zip u s i q g sp b => create_sav_zip_export col u s i q g sp b
  | Call_external u s i q t m => create_external_export col u s i q t m
  end.

Definition call_export_id (c : wrapper_call) : Z :=
  match c with
  | Call_xls _ _ i _ _ _ _ _ | Call_csv _ _ i _ _ _ _
  | Call_kml _ _ i _ | Call_zip _ _ i _
  | Call_csv_zip _ _ i _ _ _ _ | Call_sav_zip _ _ i _ _ _ _
  | Call_external _ _ i _ _ _ => i
  end.

Definition call_username (c : wrapper_call) : value :=
  match c with
  | Call_xls u _ _ _ _ _ _ _ | Call_csv u _ _ _ _ _ _
  | Call_kml u _ _ _ | Call_zip u _ _ _
  | Call_csv_zip u _ _ _ _ _ _ | Call_sav_zip u _ _ _ _ _ _
  | Call_external u _ _ _ _ _ => u
  end.

Definition call_id_string (c : wrapper_call) : value :=
  match c with
  | Call_xls _ s _ _ _ _ _ _ | Call_csv _ s _ _ _ _ _
  | Call_kml _ s _ _ | Call_zip _ s _ _
  | Call_csv_zip _ s _ _ _ _ _ | Call_sav_zip _ s _ _ _ _ _
  | Call_external _ s _ _ _ _ => s
  end.

(** The job type named at the head of a wrapper's report. *)
Definition call_label (c : wrapper_call) : string :=
  match c with
  | Call_xls _ _ _ _ _ _ _ _ => "XLS"
  | Call_csv _ _ _ _ _ _ _ => "CSV"
  | Call_kml _ _ _ _ => "KML"
  | Call_zip _ _ _ _ => "Zip"
  | Call_csv_zip _ _ _ _ _ _ _ => "CSV ZIP"
  | Call_sav_zip _ _ _ _ _ _ _ => "SAV ZIP"
  | Call_external _ _ _ _ _ _ => "External"
  end.

(** Only the attachment-archive wrapper reports without [sys.exc_info()]. *)
Definition call_passes_exc_info (c : wrapper_call) : bool :=
  match c with
  | Call_zip _ _ _ _ => false
  | _ => true
  end.

Definition is_csv (c : wrapper_call) : bool :=
  match c with
  | Call_csv _ _ _ _ _ _ _ => true
  | _ => false
  end.

Definition is_xls (c : wrapper_call) : bool :=
  match c with
  | Call_xls _ _ _ _ _ _ _ _ => true
  | _ => false
  end.

(** The generator call a wrapper makes once it holds its record. *)
Definition generator_call (c : wrapper_call) : gen_call :=
  match c with
  | Call_xls u s i q f g sp b =>
      Generate_export XLS_EXPORT
        (if negb (truthy f) then "xls" else "xlsx") u s i q g sp b
  | Call_csv u s i q g sp b =>
      Generate_export CSV_EXPORT "csv" u s i q g sp b
  | Call_kml u s i q => Generate_kml_export KML_EXPORT "kml" u s i q
  | Call_zip u s i q =>
      Generate_attachments_zip_export ZIP_EXPORT "zip" u s i q
  | Call_csv_zip u s i q g sp b =>
      Generate_export CSV_ZIP_EXPORT "zip" u s i q g sp b
  | Call_sav_zip u s i q g sp b =>
      Generate_export SAV_ZIP_EXPORT "zip" u s i q g sp b
  | Call_external u s i q t m =>
      Generate_external_export EXTERNAL_EXPORT u s i t q m
  end.

(** Reading the log. *)
Definition is_report (ev : event) : bool :=
  match ev with EvReport _ _ _ => true | _ => false end.

Definition is_submit (ev : event) : bool :=
  match ev with EvSubmit _ _ _ _ => true | _ => false end.

(** ** Worlds the wrappers leave behind *)

(** The world a wrapper leaves behind when its generator raised [e] and the
    record was marked FAILED; [reported] tells whether a report was sent. *)
Definition failed_world (c : wrapper_call) (r : ExportRow)
    (s' : gmap Z ExportRow) (e : exn) (reported : bool) (w : World)
  : World :=
  let export :=
    set_internal_status FAILED {| id := call_export_id c; row := r |} in
  {| store := <[call_export_id c := row export]> s';
     next_task := next_task w;
     log := log w
            ++ [EvGenerate (generator_call c); EvSave export]
            ++ (if reported
                then [EvReport
                        (subject_of (call_label c) (call_export_id c)
                           (call_username c) (call_id_string c))
                        e (call_passes_exc_info c)]
                else []) |}.

(** What the "no records" policy asks of a wrapper run: it returns
    normally, adds no operator report, and leaves the record FAILED. *)
Definition silent_failure (export_id : Z) (w : World)
    (out : Result value * World) : Prop :=
  (exists v, fst out = Ok v)
  /\ filter is_report (log (snd out)) = filter is_report (log w)
  /\ row_internal_status <$> store (snd out) !! export_id = Some FAILED.

(** What the queue logs, and what an eager queue does at once, when the
    cleanup of record [i] is submitted on table [s]. *)
Definition cleanup_events (settings : Settings) (s : gmap Z ExportRow)
    (i : Z) (tid : nat) : list event :=
  EvSubmit DELETE_EXPORT {[ "export_id" := VInt i ]}
    (ZIP_EXPORT_COUNTDOWN settings) tid
  :: (if CELERY_ALWAYS_EAGER settings
      then match s !! i with
           | Some _ => [EvDelete i]
           | None => []
           end
      else []).

(** The world a wrapper leaves behind when its generator returned
    [gen_export] and table [s']: only the attachment-archive wrapper does
    anything more than return. *)
Definition success_world (settings : Settings) (c : wrapper_call)
    (gen_export : Export) (s' : gmap Z ExportRow) (w : World) : World :=
  match c with
  | Call_zip _ _ _ _ =>
      {| store := if negb (TESTING_MODE settings)
                     && CELERY_ALWAYS_EAGER settings
                  then delete (id gen_export) s' else s';
         next_task := if TESTING_MODE settings then next_task w
                      else S (next_task w);
         log := log w
                ++ EvGenerate (generator_call c)
                   :: (if TESTING_MODE settings then []
                       else cleanup_events settings s' (id gen_export)
                              (next_task w)) |}
  | _ =>
      {| store := s'; next_task := next_task w;
         log := log w ++ [EvGenerate (generator_call c)] |}
  end.

(** ** The dispatcher's routing, read off its branches *)

(** The task each export type is handed to; none for a type outside the
    eight the dispatcher tests for. *)
Definition route (t : ExportType) : option job :=
  match t with
  | XLS_EXPORT | GDOC_EXPORT => Some CREATE_XLS_EXPORT
  | CSV_EXPORT => Some CREATE_CSV_EXPORT
  | CSV_ZIP_EXPORT => Some CREATE_CSV_ZIP_EXPORT
  | SAV_ZIP_EXPORT => Some CREATE_SAV_ZIP_EXPORT
  | ZIP_EXPORT => Some CREATE_ZIP_EXPORT
  | KML_EXPORT => Some CREATE_KML_EXPORT
  | EXTERNAL_EXPORT => Some CREATE_EXTERNAL_EXPORT
  | OTHER_EXPORT _ => None
  end.

Definition supported (t : ExportType) : bool :=
  match route t with Some _ => true | None => false end.

(** The option keys the dispatcher looks at for each export type. *)
Definition relevant_keys (t : ExportType) : list string :=
  match t with
  | XLS_EXPORT | GDOC_EXPORT | CSV_EXPORT | CSV_ZIP_EXPORT
  | SAV_ZIP_EXPORT =>
      ["group_delimiter"; "split_select_multiples";
       "binary_select_multiples"]
  | EXTERNAL_EXPORT => ["token"; "meta"]
  | ZIP_EXPORT | KML_EXPORT | OTHER_EXPORT _ => []
  end.

Definition base_arguments (xf : XForm) (i : Z) (query : value) : kwargs :=
  {[ "username" := VStr (username (user xf));
     "id_string" := VStr (id_string xf);
     "export_id" := VInt i;
     "query" := query ]}.

(** The keys the dispatcher always sets. *)
Definition base_keys : list string :=
  ["username"; "id_string"; "export_id"; "query"].

(** The argument set after the dispatcher's assignments for type [t]. *)
Definition arguments_for (t : ExportType) (xf : XForm) (i : Z)
    (query : value) (options : option kwargs) : kwargs :=
  foldl (fun arguments k => copy_option options k arguments)
        (base_arguments xf i query) (relevant_keys t).

(** [options] without the keys that do not apply to type [t]. *)
Definition relevant_only (t : ExportType) (options : option kwargs)
  : option kwargs :=
  filter (fun kv : string * value => kv.1 ∈ relevant_keys t) <$> options.

(** The record [Export.objects.create] adds to table [s]. *)
Definition new_export (xf : XForm) (t : ExportType)
    (s : gmap Z ExportRow) : Export :=
  {| id := new_id s;
     row := {| row_xform := xf; row_export_type := t;
               row_internal_status := PENDING; row_task_id := None |} |}.

(** The world once the dispatcher has created its record. *)
Definition created_world (xf : XForm) (t : ExportType) (w : World) : World :=
  let e := new_export xf t (store w) in
  {| store := <[id e := row e]> (store w);
     next_task := next_task w;
     log := log w ++ [EvCreate e] |}.

(** The last steps of a dispatch: stamp the task id on [export], save it
    and return the pair. *)
Definition stamped (export : Export) (result : AsyncResult) (w : World)
  : Result (option (Export * AsyncResult)) * World :=
  let export := set_task_id (result_task_id result) export in
  (Ok (Some (export, result)),
   {| store := <[id export := row export]> (store w);
      next_task := next_task w;
      log := log w ++ [EvSave export] |}).

(** The dispatch once the argument set is fixed: the record is created,
    [arguments] go to the task of type [t] with countdown 10, and the
    record is stamped with the task id. *)
Definition dispatch_with (settings : Settings) (col : Collaborators)
    (xf : XForm) (t : ExportType) (arguments : kwargs) (w : World)
  : Result (option (Export * AsyncResult)) * World :=
  let e0 := new_export xf t (store w) in
  let w0 := created_world xf t w in
  match route t with
  | None => (Raise ExportTypeError, w0)
  | Some j =>
      match apply_async settings (run_job settings col j) j arguments 10 w0
      with
      | (Raise e, w2) => (Raise e, w2)
      | (Ok result, w2) =>
          if CELERY_ALWAYS_EAGER settings then
            match store w2 !! id e0 with
            | Some r2 => stamped {| id := id e0; row := r2 |} result w2
            | None => (Raise DoesNotExist, w2)
            end
          else stamped e0 result w2
      end
  end.

(** The events a running task may add to the log: it creates no record
    and submits nothing but a cleanup. *)
Definition task_event (ev : event) : Prop :=
  match ev with
  | EvGenerate _ | EvSave _ | EvDelete _ | EvReport _ _ _ => True
  | EvSubmit j _ _ _ => j = DELETE_EXPORT
  | EvCreate _ | EvProbe _ | EvMail _ _ => False
  end.

(** ** Test fixtures *)

Module Fixtures.

Definition bob : User := {| username := "bob" |}.
Definition survey : XForm := {| user := bob; id_string := "survey" |}.

Definition pending_row (t : ExportType) : ExportRow :=
  {| row_xform := survey; row_export_type := t;
     row_internal_status := PENDING; row_task_id := None |}.

Definition gen_export_id (c : gen_call) : Z :=
  match c with
  | Generate_export _ _ _ _ i _ _ _ _
  | Generate_kml_export _ _ _ _ i _
  | Generate_attachments_zip_export _ _ _ _ i _
  | Generate_external_export _ _ _ i _ _ _ => i
  end.

(** A generator that hands back the record it was asked to fill. *)
Definition gen_succeeds (c : gen_call) (s : gmap Z ExportRow)
  : Result Export * gmap Z ExportRow :=
  match s !! gen_export_id c with
  | Some r => (Ok {| id := gen_export_id c; row := r |}, s)
  | None => (Raise DoesNotExist, s)
  end.

Definition gen_raises (e : exn) (c : gen_call) (s : gmap Z ExportRow)
  : Result Export * gmap Z ExportRow := (Raise e, s).

Definition col_ok : Collaborators :=
  {| generate := gen_succeeds;
     mongo_sync_status := fun remongo =>
       Ok (if remongo then "Total # of records to remongo: 0"
           else "Total # of records to remongo: 5") |}.

Definition col_in_sync : Collaborators :=
  {| generate := gen_succeeds;
     mongo_sync_status := fun _ => Ok "Total # of records to remongo: 0" |}.

Definition col_raising (e : exn) : Collaborators :=
  {| generate := gen_raises e;
     mongo_sync_status := fun _ => Raise e |}.

Definition production : Settings :=
  {| CELERY_ALWAYS_EAGER := false;
     CELERY_EAGER_PROPAGATES_EXCEPTIONS := false;
     TESTING_MODE := false;
     ZIP_EXPORT_COUNTDOWN := 3600 |}.

Definition testing : Settings :=
  {| CELERY_ALWAYS_EAGER := true;
     CELERY_EAGER_PROPAGATES_EXCEPTIONS := false;
     TESTING_MODE := true;
     ZIP_EXPORT_COUNTDOWN := 3600 |}.

Definition eager : Settings :=
  {| CELERY_ALWAYS_EAGER := true;
     CELERY_EAGER_PROPAGATES_EXCEPTIONS := false;
     TESTING_MODE := false;
     ZIP_EXPORT_COUNTDOWN := 3600 |}.

Definition empty_world : World :=
  {| store := ∅; next_task := 0; log := [] |}.

(** One pending record, with key 7. *)
Definition world7 (t : ExportType) : World :=
  {| store := {[ 7 := pending_row t ]}; next_task := 0; log := [] |}.

End Fixtures.

(** ** Further readings of the log and of the dispatcher *)

Definition is_zip (c : wrapper_call) : bool :=
  match c with
  | Call_zip _ _ _ _ => true
  | _ => false
  end.

Definition is_probe (ev : event) : bool :=
  match ev with EvProbe _ => true | _ => false end.

Definition is_mail (ev : event) : bool :=
  match ev with EvMail _ _ => true | _ => false end.

(** The value of option [k] if [options] has the key, [dflt] otherwise. *)
Definition option_or (options : option kwargs) (k : string) (dflt : value)
  : value :=
  default dflt (default ∅ options !! k).

(** The wrapper call that the job queued for type [t] and record [i]
    amounts to: the dispatcher's entries, the options it copies for that
    type, and the wrapper's defaults for what it does not pass. *)
Definition dispatched_call (t : ExportType) (xf : XForm) (i : Z)
    (query : value) (options : option kwargs) : option wrapper_call :=
  let u := VStr (username (user xf)) in
  let s := VStr (id_string xf) in
  let g := option_or options "group_delimiter" (VStr "/") in
  let sp := option_or options "split_select_multiples" (VBool true) in
  let b := option_or options "binary_select_multiples" (VBool false) in
  match t with
  | XLS_EXPORT | GDOC_EXPORT =>
      Some (Call_xls u s i query (VBool true) g sp b)
  | CSV_EXPORT => Some (Call_csv u s i query g sp b)
  | CSV_ZIP_EXPORT => Some (Call_csv_zip u s i query g sp b)
  | SAV_ZIP_EXPORT => Some (Call_sav_zip u s i query g sp b)
  | ZIP_EXPORT => Some (Call_zip u s i query)
  | KML_EXPORT => Some (Call_kml u s i query)
  | EXTERNAL_EXPORT =>
      Some (Call_external u s i query (option_or options "token" VNone)
              (option_or options "meta" VNone))
  | OTHER_EXPORT _ => None
  end.

(** The export type a generator is asked for. *)
Definition gen_call_type (c : gen_call) : ExportType :=
  match c with
  | Generate_export t _ _ _ _ _ _ _ _
  | Generate_kml_export t _ _ _ _ _
  | Generate_attachments_zip_export t _ _ _ _ _
  | Generate_external_export t _ _ _ _ _ _ => t
  end.

(** ** Sanity checks on concrete inputs *)

Example remongo_5 :
  REMONGO_PATTERN_search "Total # of records to remongo: 5" = true.
Proof. reflexivity. Qed.

Example remongo_0 :
  REMONGO_PATTERN_search "Total # of records to remongo: 0" = false.
Proof. reflexivity. Qed.

Example remongo_ci :
  REMONGO_PATTERN_search "xx TOTAL # OF RECORDS TO REMONGO: -12 yy" = true.
Proof. reflexivity. Qed.

Example remongo_leading_zero :
  REMONGO_PATTERN_search "Total # of records to remongo: 05" = false.
Proof. reflexivity. Qed.

Example instructions_length :
  String.length SYNC_MONGO_MANUAL_INSTRUCTIONS = 296%nat.
Proof. reflexivity. Qed.

Example run_empty_csv :
  invoke Fixtures.production (Fixtures.col_raising NoRecordsFoundError)
    (Call_csv (VStr "bob") (VStr "survey") 7 VNone (VStr "|") (VBool true)
       (VBool false)) (Fixtures.world7 CSV_EXPORT)
  = (Ok VNone,
     {| store := {[ 7 := {| row_xform := Fixtures.survey;
                            row_export_type := CSV_EXPORT;
                            row_internal_status := FAILED;
                            row_task_id := None |} ]};
        next_task := 0;
        log := [EvGenerate
                  (Generate_export CSV_EXPORT "csv" (VStr "bob")
                     (VStr "survey") 7 VNone (VStr "|") (VBool true)
                     (VBool false));
                EvSave {| id := 7;
                          row := {| row_xform := Fixtures.survey;
                                    row_export_type := CSV_EXPORT;
                                    row_internal_status := FAILED;
                                    row_task_id := None |} |}] |}).
Proof. vm_compute. reflexivity. Qed.

(** ** The record store *)

Lemma foldr_max_ge (l : list Z) (x : Z) :
  x ∈ l -> x <= foldr Z.max 0 l.
Proof.
  induction l as [|y l IH]; intros Hx.
  - inversion Hx.
  - apply elem_of_cons in Hx as [->|Hx]; simpl.
    + apply Z.le_max_l.
    + specialize (IH Hx). lia.
Qed.

(** The key of a new row is not in use. *)
Lemma new_id_fresh (s : gmap Z ExportRow) : s !! new_id s = None.
Proof.
  destruct (s !! new_id s) as [r|] eqn:E; [|reflexivity].
  exfalso.
  assert (new_id s ∈ (map_to_list s).*1) as Hin.
  { apply list_elem_of_fmap. exists (new_id s, r). split; [reflexivity|].
    by apply elem_of_map_to_list. }
  apply foldr_max_ge in Hin. unfold new_id in Hin. lia.
Qed.

(** ** Stepping through the monad *)

Ltac norm_log := repeat rewrite <- app_assoc; simpl.

Ltac unfold_ops :=
  unfold fail_and_report, report_exception, mail_admins, call_generator,
    Export_objects_get, Export_save, Export_delete, Export_objects_create,
    try_except_else, bind, ret, raise, emit, with_store; simpl.

(** ** [delete_export] *)

Lemma run_delete_export_singleton (i : Z) (w : World) :
  run_delete_export {[ "export_id" := VInt i ]} w
  = match delete_export i w with
    | (Ok b, w') => (Ok (VBool b), w')
    | (Raise e, w') => (Raise e, w')
    end.
Proof.
  unfold run_delete_export.
  replace (accepts ["export_id"] [] {[ "export_id" := VInt i ]})
    with true by (vm_compute; reflexivity).
  unfold arg_export_id.
  replace (({[ "export_id" := VInt i ]} : kwargs) !! "export_id")
    with (Some (VInt i)) by (vm_compute; reflexivity).
  unfold bind, ret. destruct (delete_export i w) as [[b|e] w']; reflexivity.
Qed.

Lemma delete_export_eq (export_id : Z) (w : World) :
  delete_export export_id w
  = match store w !! export_id with
    | Some _ =>
        (Ok true, {| store := delete export_id (store w);
                     next_task := next_task w;
                     log := log w ++ [EvDelete export_id] |})
    | None => (Ok false, w)
    end.
Proof.
  unfold delete_export. unfold_ops.
  destruct (store w !! export_id); reflexivity.
Qed.

Lemma apply_async_delete_export (settings : Settings) (i : Z) (w : World) :
  apply_async settings run_delete_export DELETE_EXPORT
    {[ "export_id" := VInt i ]} (ZIP_EXPORT_COUNTDOWN settings) w
  = (Ok {| result_task_id := next_task w |},
     {| store := if CELERY_ALWAYS_EAGER settings
                 then delete i (store w) else store w;
        next_task := S (next_task w);
        log := log w ++ cleanup_events settings (store w) i (next_task w) |}).
Proof.
  unfold apply_async, cleanup_events.
  destruct (CELERY_ALWAYS_EAGER settings); [|reflexivity].
  rewrite run_delete_export_singleton, delete_export_eq. simpl.
  destruct (store w !! i) as [r|] eqn:E; simpl.
  - norm_log. reflexivity.
  - rewrite (delete_id _ _ E). reflexivity.
Qed.

(** ** The wrappers *)

Section WrapperFacts.

Context (settings : Settings) (col : Collaborators).

(** A wrapper that finds no record: only the spreadsheet wrapper guards the
    lookup. *)
Lemma invoke_missing_record (c : wrapper_call) (w : World) :
  store w !! call_export_id c = None ->
  invoke settings col c w
  = if is_xls c then (Ok VNone, w) else (Raise DoesNotExist, w).
Proof.
  intros Hget.
  destruct c; simpl in *;
    unfold create_xls_export, create_csv_export, create_kml_export,
      create_zip_export, create_csv_zip_export, create_sav_zip_export,
      create_external_export;
    unfold_ops; rewrite Hget; reflexivity.
Qed.

Lemma invoke_generator_raises (c : wrapper_call) (w : World)
    (r : ExportRow) (s' : gmap Z ExportRow) (e : exn) :
  store w !! call_export_id c = Some r ->
  generate col (generator_call c) (store w) = (Raise e, s') ->
  invoke settings col c w
  = if is_csv c && bool_decide (e = NoRecordsFoundError)
    then (Ok VNone, failed_world c r s' e false w)
    else (Raise e, failed_world c r s' e true w).
Proof.
  intros Hget Hgen. unfold failed_world.
  destruct c; simpl in *;
    unfold create_xls_export, create_csv_export, create_kml_export,
      create_zip_export, create_csv_zip_export, create_sav_zip_export,
      create_external_export;
    unfold_ops; rewrite Hget; simpl; rewrite Hgen; simpl;
    try (norm_log; reflexivity).
  destruct e; simpl; norm_log; reflexivity.
Qed.

Lemma invoke_generator_succeeds (c : wrapper_call) (w : World)
    (r : ExportRow) (gen_export : Export) (s' : gmap Z ExportRow) :
  store w !! call_export_id c = Some r ->
  generate col (generator_call c) (store w) = (Ok gen_export, s') ->
  invoke settings col c w
  = (Ok (VInt (id gen_export)), success_world settings c gen_export s' w).
Proof.
  intros Hget Hgen. unfold success_world.
  destruct c; simpl in *;
    unfold create_xls_export, create_csv_export, create_kml_export,
      create_zip_export, create_csv_zip_export, create_sav_zip_export,
      create_external_export;
    unfold_ops; rewrite Hget; simpl; rewrite Hgen; simpl;
    try reflexivity.
  destruct (TESTING_MODE settings); simpl.
  - reflexivity.
  - rewrite apply_async_delete_export; simpl. norm_log. reflexivity.
Qed.

Lemma cleanup_events_task (s : gmap Z ExportRow) (i : Z) (tid : nat) :
  Forall task_event (cleanup_events settings s i tid).
Proof.
  unfold cleanup_events. constructor; [reflexivity|].
  destruct (CELERY_ALWAYS_EAGER settings); [|constructor].
  destruct (s !! i); repeat constructor.
Qed.

(** What a wrapper adds to the log: task events only, the generator call
    first when the record is there. *)
Lemma invoke_log (c : wrapper_call) (w : World) :
  exists rest,
    log (snd (invoke settings col c w)) = log w ++ rest
    /\ Forall task_event rest
    /\ (is_Some (store w !! call_export_id c) ->
        exists rest', rest = EvGenerate (generator_call c) :: rest').
Proof.
  destruct (store w !! call_export_id c) as [r|] eqn:Hget.
  - destruct (generate col (generator_call c) (store w)) as [[g|e] s']
      eqn:Hgen.
    + rewrite (invoke_generator_succeeds c w r g s' Hget Hgen).
      unfold success_world.
      destruct c; simpl;
        (eexists; split; [reflexivity|];
         split; [|intros _; eexists; reflexivity]).
      all: try (repeat constructor; fail).
      constructor; [exact I|].
      destruct (TESTING_MODE settings); [constructor|].
      apply cleanup_events_task.
    + rewrite (invoke_generator_raises c w r s' e Hget Hgen).
      destruct (is_csv c && bool_decide (e = NoRecordsFoundError));
        unfold failed_world; simpl;
        (eexists; split; [reflexivity|];
         split; [repeat constructor | intros _; eexists; reflexivity]).
  - rewrite (invoke_missing_record c w Hget).
    exists []. rewrite app_nil_r.
    destruct (is_xls c); simpl;
      (split; [reflexivity|]; split; [constructor|]);
      intros [? ?]; discriminate.
Qed.

End WrapperFacts.

(** ** The cleanup job *)

(** C8. The cleanup job deletes an existing record and returns [True];
    for an id with no record it returns [False] and changes nothing; it
    never raises, and a second call for the same id returns [False]. *)
Theorem delete_export_idempotent (export_id : Z) (w : World) :
  delete_export export_id w
  = match store w !! export_id with
    | Some _ =>
        (Ok true, {| store := delete export_id (store w);
                     next_task := next_task w;
                     log := log w ++ [EvDelete export_id] |})
    | None => (Ok false, w)
    end
  /\ (exists b, fst (delete_export export_id w) = Ok b)
  /\ store (snd (delete_export export_id w)) !! export_id = None
  /\ delete_export export_id (snd (delete_export export_id w))
     = (Ok false, snd (delete_export export_id w)).
Proof.
  rewrite !delete_export_eq.
  destruct (store w !! export_id) as [r|] eqn:E; simpl.
  - rewrite lookup_delete_eq. repeat split; eauto.
  - rewrite E. repeat split; eauto.
Qed.

(** ** Failure handling in the wrappers *)

(** C1, as stated, fails for the spreadsheet wrapper: with a generator
    that raises [NoRecordsFoundError] the run is not silent. *)
Lemma no_records_not_silent_in_xls :
  let c := Call_xls (VStr "bob") (VStr "survey") 7 VNone (VBool true)
             (VStr "/") (VBool true) (VBool false) in
  let col := Fixtures.col_raising NoRecordsFoundError in
  let w := Fixtures.world7 XLS_EXPORT in
  generate col (generator_call c) (store w)
    = (Raise NoRecordsFoundError, store w)
  /\ invoke Fixtures.production col c w
     = (Raise NoRecordsFoundError,
        failed_world c (Fixtures.pending_row XLS_EXPORT) (store w)
          NoRecordsFoundError true w)
  /\ ~ silent_failure 7 w (invoke Fixtures.production col c w).
Proof.
  split; [reflexivity|].
  split; [vm_compute; reflexivity|].
  intros [[v Hv] _]. vm_compute in Hv. discriminate.
Qed.

(** C1, amended. When the generator raises [NoRecordsFoundError], the CSV
    wrapper marks the record FAILED, saves it, sends no report and returns
    [None]; each of the other six wrappers marks the record FAILED, saves
    it, sends one report and re-raises. *)
Theorem no_records_handling (settings : Settings) (col : Collaborators)
    (c : wrapper_call) (w : World) (r : ExportRow)
    (s' : gmap Z ExportRow) :
  store w !! call_export_id c = Some r ->
  generate col (generator_call c) (store w)
    = (Raise NoRecordsFoundError, s') ->
  let export :=
    set_internal_status FAILED {| id := call_export_id c; row := r |} in
  let w_saved :=
    {| store := <[call_export_id c := row export]> s';
       next_task := next_task w;
       log := log w ++ [EvGenerate (generator_call c); EvSave export] |} in
  internal_status export = FAILED
  /\ if is_csv c then
       invoke settings col c w = (Ok VNone, w_saved)
       /\ silent_failure (call_export_id c) w (invoke settings col c w)
     else
       invoke settings col c w
       = (Raise NoRecordsFoundError,
          {| store := store w_saved;
             next_task := next_task w;
             log := log w_saved
                    ++ [EvReport
                          (subject_of (call_label c) (call_export_id c)
                             (call_username c) (call_id_string c))
                          NoRecordsFoundError (call_passes_exc_info c)] |}).
Proof.
  intros Hget Hgen export w_saved. split; [reflexivity|].
  pose proof (invoke_generator_raises settings col c w r s' _ Hget Hgen)
    as Hinv.
  unfold failed_world in Hinv. fold export in Hinv.
  destruct (is_csv c) eqn:Hc; simpl in Hinv.
  - assert (invoke settings col c w = (Ok VNone, w_saved)) as Heq.
    { rewrite Hinv. reflexivity. }
    split; [exact Heq|]. rewrite Heq. unfold silent_failure; simpl.
    split; [eauto|]. split.
    + rewrite filter_app. simpl. by rewrite app_nil_r.
    + by rewrite lookup_insert_eq.
  - rewrite Hinv. unfold w_saved; simpl. norm_log. reflexivity.
Qed.

Lemma no_records_handling_witness :
  let c := Call_csv (VStr "bob") (VStr "survey") 7 VNone (VStr "|")
             (VBool true) (VBool false) in
  let col := Fixtures.col_raising NoRecordsFoundError in
  let w := Fixtures.world7 CSV_EXPORT in
  silent_failure 7 w (invoke Fixtures.production col c w).
Proof.
  intros c col w.
  exact (proj2 (proj2
    (no_records_handling Fixtures.production col c w
       (Fixtures.pending_row CSV_EXPORT) (store w)
       eq_refl eq_refl))).
Defined.

(** C3. When the generator raises anything but [NoRecordsFoundError],
    every wrapper first saves the record as FAILED, then sends exactly one
    report whose subject names the job type, the record id, the owner and
    the form and which carries the exception, and finally re-raises the
    same exception. *)
Theorem unexpected_failure_handling (settings : Settings)
    (col : Collaborators) (c : wrapper_call) (w : World) (r : ExportRow)
    (s' : gmap Z ExportRow) (e : exn) :
  store w !! call_export_id c = Some r ->
  generate col (generator_call c) (store w) = (Raise e, s') ->
  e <> NoRecordsFoundError ->
  let export :=
    set_internal_status FAILED {| id := call_export_id c; row := r |} in
  let subject :=
    call_label c +:+ " Export Exception: Export ID - "
      +:+ pretty (call_export_id c) +:+ ", /" +:+ str (call_username c)
      +:+ "/" +:+ str (call_id_string c) in
  internal_status export = FAILED
  /\ invoke settings col c w
     = (Raise e,
        {| store := <[call_export_id c := row export]> s';
           next_task := next_task w;
           log := log w
                  ++ [EvGenerate (generator_call c);
                      EvSave export;
                      EvReport subject e (call_passes_exc_info c)] |})
  /\ length (filter is_report (log (snd (invoke settings col c w))))
     = S (length (filter is_report (log w))).
Proof.
  intros Hget Hgen Hne export subject. split; [reflexivity|].
  pose proof (invoke_generator_raises settings col c w r s' e Hget Hgen)
    as Hinv.
  assert (is_csv c && bool_decide (e = NoRecordsFoundError) = false) as Hb.
  { rewrite (bool_decide_eq_false_2 _ Hne). apply andb_false_r. }
  rewrite Hb in Hinv. rewrite Hinv. unfold failed_world; simpl.
  split; [reflexivity|].
  rewrite filter_app, length_app. simpl. lia.
Qed.

Lemma unexpected_failure_handling_witness :
  let c := Call_external (VStr "bob") (VStr "survey") 7 VNone
             (VStr "token") VNone in
  let col := Fixtures.col_raising ConnectionError in
  let w := Fixtures.world7 EXTERNAL_EXPORT in
  fst (invoke Fixtures.production col c w) = Raise ConnectionError
  /\ log (snd (invoke Fixtures.production col c w))
     = [EvGenerate (generator_call c);
        EvSave {| id := 7;
                  row := {| row_xform := Fixtures.survey;
                            row_export_type := EXTERNAL_EXPORT;
                            row_internal_status := FAILED;
                            row_task_id := None |} |};
        EvReport "External Export Exception: Export ID - 7, /bob/survey"
          ConnectionError true].
Proof.
  intros c col w.
  destruct (unexpected_failure_handling Fixtures.production col c w
              (Fixtures.pending_row EXTERNAL_EXPORT) (store w)
              ConnectionError eq_refl eq_refl ltac:(discriminate))
    as (_ & Heq & _).
  rewrite Heq. split; reflexivity.
Defined.

(** C2, at the failing input: the CSV wrapper called for record 7 on an
    empty table raises [DoesNotExist] instead of returning [None].  It
    writes nothing. *)
Theorem create_csv_export_missing_record :
  create_csv_export Fixtures.col_ok (VStr "bob") (VStr "survey") 7 VNone
    (VStr "/") (VBool true) (VBool false) Fixtures.empty_world
  = (Raise DoesNotExist, Fixtures.empty_world).
Proof. reflexivity. Qed.

(** The spreadsheet wrapper is the one that guards the lookup. *)
Lemma create_xls_export_missing_record (col : Collaborators)
    (username id_string : value) (export_id : Z)
    (query force_xlsx group_delimiter split_select_multiples
       binary_select_multiples : value) (w : World) :
  store w !! export_id = None ->
  create_xls_export col username id_string export_id query force_xlsx
    group_delimiter split_select_multiples binary_select_multiples w
  = (Ok VNone, w).
Proof.
  intros Hget.
  exact (invoke_missing_record Fixtures.production col
           (Call_xls username id_string export_id query force_xlsx
              group_delimiter split_select_multiples
              binary_select_multiples) w Hget).
Qed.

(** ** The attachment-archive wrapper on success *)

(** C6. When its generator succeeds the attachment-archive wrapper returns
    the id of the generated export and saves nothing itself; outside test
    mode it submits exactly one [delete_export] job for that id with the
    configured countdown, and in test mode it submits none. *)
Theorem create_zip_export_success (settings : Settings)
    (col : Collaborators) (username id_string : value) (export_id : Z)
    (query : value) (w : World) (r : ExportRow) (gen_export : Export)
    (s' : gmap Z ExportRow) :
  store w !! export_id = Some r ->
  generate col
    (Generate_attachments_zip_export ZIP_EXPORT "zip" username id_string
       export_id query) (store w) = (Ok gen_export, s') ->
  let out :=
    create_zip_export settings col username id_string export_id query w in
  let new_events :=
    if TESTING_MODE settings then []
    else cleanup_events settings s' (id gen_export) (next_task w) in
  fst out = Ok (VInt (id gen_export))
  /\ log (snd out)
     = log w
       ++ EvGenerate
            (Generate_attachments_zip_export ZIP_EXPORT "zip" username
               id_string export_id query)
          :: new_events
  /\ filter is_submit new_events
     = (if TESTING_MODE settings then []
        else [EvSubmit DELETE_EXPORT {[ "export_id" := VInt (id gen_export) ]}
                (ZIP_EXPORT_COUNTDOWN settings) (next_task w)])
  /\ (forall e, EvSave e ∉ new_events)
  /\ store (snd out)
     = (if negb (TESTING_MODE settings) && CELERY_ALWAYS_EAGER settings
        then delete (id gen_export) s' else s')
  /\ (forall i r', store (snd out) !! i = Some r' -> s' !! i = Some r').
Proof.
  intros Hget Hgen out new_events.
  assert (out
    = (Ok (VInt (id gen_export)),
       {| store := if negb (TESTING_MODE settings)
                      && CELERY_ALWAYS_EAGER settings
                   then delete (id gen_export) s' else s';
          next_task := if TESTING_MODE settings then next_task w
                       else S (next_task w);
          log := log w
                 ++ EvGenerate
                      (Generate_attachments_zip_export ZIP_EXPORT "zip"
                         username id_string export_id query)
                    :: new_events |})) as Hout.
  { exact (invoke_generator_succeeds settings col
             (Call_zip username id_string export_id query) w r gen_export
             s' Hget Hgen). }
  rewrite Hout; simpl. split; [reflexivity|]. split; [reflexivity|].
  split; [|split; [|split; [reflexivity|]]].
  - unfold new_events, cleanup_events.
    destruct (TESTING_MODE settings); [reflexivity|].
    destruct (CELERY_ALWAYS_EAGER settings); [|reflexivity].
    destruct (s' !! id gen_export); reflexivity.
  - intros e He. unfold new_events, cleanup_events in He.
    destruct (TESTING_MODE settings); [inversion He|].
    apply elem_of_cons in He as [He|He]; [discriminate|].
    destruct (CELERY_ALWAYS_EAGER settings); [|inversion He].
    destruct (s' !! id gen_export); [|inversion He].
    apply list_elem_of_singleton in He. discriminate.
  - intros i r' Hi.
    destruct (negb (TESTING_MODE settings) && CELERY_ALWAYS_EAGER settings);
      [|exact Hi].
    apply lookup_delete_Some in Hi as [_ Hi]. exact Hi.
Qed.

Lemma create_zip_export_success_witness :
  let out :=
    create_zip_export Fixtures.production Fixtures.col_ok (VStr "bob")
      (VStr "survey") 7 VNone (Fixtures.world7 ZIP_EXPORT) in
  fst out = Ok (VInt 7)
  /\ log (snd out)
     = [EvGenerate
          (Generate_attachments_zip_export ZIP_EXPORT "zip" (VStr "bob")
             (VStr "survey") 7 VNone);
        EvSubmit DELETE_EXPORT {[ "export_id" := VInt 7 ]} 3600 0].
Proof.
  intros out.
  destruct (create_zip_export_success Fixtures.production Fixtures.col_ok
              (VStr "bob") (VStr "survey") 7 VNone
              (Fixtures.world7 ZIP_EXPORT)
              (Fixtures.pending_row ZIP_EXPORT)
              {| id := 7; row := Fixtures.pending_row ZIP_EXPORT |}
              (store (Fixtures.world7 ZIP_EXPORT)) eq_refl eq_refl)
    as (H1 & H2 & _).
  split; [exact H1 | exact H2].
Defined.

(** ** The argument set *)

Lemma copy_option_eq (options : option kwargs) (k : string) (a : kwargs) :
  copy_option options k a
  = match default ∅ options !! k with
    | Some v => <[k := v]> a
    | None => a
    end.
Proof.
  unfold copy_option, dict_truthy.
  destruct options as [o|]; simpl.
  - case_bool_decide as Ho; simpl; [|reflexivity].
    subst o. by rewrite lookup_empty.
  - by rewrite lookup_empty.
Qed.

Lemma copy_option_lookup (options : option kwargs) (k0 k : string)
    (a : kwargs) :
  copy_option options k0 a !! k
  = if decide (k0 = k)
    then match default ∅ options !! k with
         | Some v => Some v
         | None => a !! k
         end
    else a !! k.
Proof.
  rewrite copy_option_eq.
  destruct (decide (k0 = k)) as [->|Hne].
  - destruct (default ∅ options !! k); [apply lookup_insert_eq|reflexivity].
  - destruct (default ∅ options !! k0); [|reflexivity].
    by apply lookup_insert_ne.
Qed.

Lemma foldl_copy_option_lookup (options : option kwargs)
    (ks : list string) (a : kwargs) (k : string) :
  foldl (fun arguments k0 => copy_option options k0 arguments) a ks !! k
  = if bool_decide (k ∈ ks)
    then match default ∅ options !! k with
         | Some v => Some v
         | None => a !! k
         end
    else a !! k.
Proof.
  revert a. induction ks as [|k0 ks IH]; intros a; simpl.
  - reflexivity.
  - rewrite IH, copy_option_lookup.
    destruct (decide (k0 = k)) as [->|Hne].
    + rewrite (bool_decide_eq_true_2 (k ∈ k :: ks)) by apply list_elem_of_here.
      case_bool_decide; destruct (default ∅ options !! k); reflexivity.
    + case_bool_decide as Hin.
      * rewrite (bool_decide_eq_true_2 (k ∈ k0 :: ks))
          by (by apply list_elem_of_further).
        reflexivity.
      * rewrite (bool_decide_eq_false_2 (k ∈ k0 :: ks)); [reflexivity|].
        intros [?|?]%elem_of_cons; congruence.
Qed.

Lemma arguments_for_lookup (t : ExportType) (xf : XForm) (i : Z)
    (query : value) (options : option kwargs) (k : string) :
  arguments_for t xf i query options !! k
  = if bool_decide (k ∈ relevant_keys t)
    then match default ∅ options !! k with
         | Some v => Some v
         | None => base_arguments xf i query !! k
         end
    else base_arguments xf i query !! k.
Proof. apply foldl_copy_option_lookup. Qed.

(** The argument set is the base entries overlaid with the options that
    apply to the type. *)
Lemma arguments_for_union (t : ExportType) (xf : XForm) (i : Z)
    (query : value) (options : option kwargs) :
  arguments_for t xf i query options
  = filter (fun kv : string * value => kv.1 ∈ relevant_keys t)
           (default ∅ options)
    ∪ base_arguments xf i query.
Proof.
  apply map_eq; intros k.
  rewrite arguments_for_lookup, lookup_union, map_lookup_filter.
  case_bool_decide as Hk; destruct (default ∅ options !! k) as [v|]; simpl.
  - rewrite option_guard_True by exact Hk. simpl.
    by rewrite union_Some_l.
  - by rewrite (left_id_L None _).
  - rewrite option_guard_False by exact Hk. simpl.
    by rewrite (left_id_L None _).
  - by rewrite (left_id_L None _).
Qed.

Lemma default_relevant_only (t : ExportType) (options : option kwargs) :
  default ∅ (relevant_only t options)
  = filter (fun kv : string * value => kv.1 ∈ relevant_keys t)
           (default ∅ options).
Proof.
  destruct options as [o|]; simpl; [reflexivity|].
  by rewrite map_filter_empty.
Qed.

Lemma arguments_for_relevant_only (t : ExportType) (xf : XForm) (i : Z)
    (query : value) (options : option kwargs) :
  arguments_for t xf i query (relevant_only t options)
  = arguments_for t xf i query options.
Proof.
  rewrite !arguments_for_union, default_relevant_only.
  f_equal. apply map_eq; intros k. rewrite !map_lookup_filter.
  destruct (default ∅ options !! k) as [v|]; simpl; [|reflexivity].
  destruct (decide (k ∈ relevant_keys t)) as [Hk|Hk].
  - rewrite option_guard_True by exact Hk. simpl.
    by rewrite option_guard_True by exact Hk.
  - by rewrite option_guard_False by exact Hk.
Qed.

(** ** Binding the dispatched arguments *)

Lemma accepts_true (required optional : list string) (kw : kwargs) :
  Forall (fun k => is_Some (kw !! k)) required ->
  (forall k, is_Some (kw !! k) -> k ∈ required ++ optional) ->
  accepts required optional kw = true.
Proof.
  intros Hreq Hdom. unfold accepts. apply andb_true_intro; split.
  - apply forallb_forall. intros k Hk%list_elem_of_In.
    apply bool_decide_eq_true_2.
    rewrite Forall_forall in Hreq. by apply Hreq.
  - apply forallb_forall. intros k Hk%list_elem_of_In.
    apply bool_decide_eq_true_2. apply Hdom.
    apply list_elem_of_fmap in Hk as ([k' v] & -> & Hkv).
    apply elem_of_map_to_list in Hkv. simpl. eauto.
Qed.

Lemma base_arguments_keys (xf : XForm) (i : Z) (query : value)
    (k : string) :
  is_Some (base_arguments xf i query !! k) -> k ∈ base_keys.
Proof.
  unfold base_arguments, base_keys. intros [v Hv].
  repeat (rewrite lookup_insert in Hv;
          case_decide; [subst; repeat constructor|]).
  rewrite lookup_singleton in Hv.
  case_decide; [subst; repeat constructor|discriminate].
Qed.

(** Every key of the argument set is a base key or a key that applies to
    the type. *)
Lemma arguments_for_keys (t : ExportType) (xf : XForm) (i : Z)
    (query : value) (options : option kwargs) (k : string) :
  is_Some (arguments_for t xf i query options !! k) ->
  k ∈ base_keys ++ relevant_keys t.
Proof.
  rewrite arguments_for_lookup. intros Hk. apply elem_of_app.
  case_bool_decide as Hrel; [by right|].
  left. by apply base_arguments_keys in Hk.
Qed.

Lemma arguments_for_base (t : ExportType) (xf : XForm) (i : Z)
    (query : value) (options : option kwargs) (k : string) :
  k ∉ relevant_keys t ->
  arguments_for t xf i query options !! k = base_arguments xf i query !! k.
Proof.
  intros Hk. rewrite arguments_for_lookup.
  by rewrite bool_decide_eq_false_2.
Qed.

(** A string that differs from every member of a list of literals. *)
Ltac not_in_list :=
  let H := fresh "Hin" in
  intros H;
  repeat (apply elem_of_cons in H as [H|H]; [discriminate H|]);
  by apply elem_of_nil in H.

Lemma sublist_by_compute (l1 l2 : list string) :
  forallb (fun k => bool_decide (k ∈ l2)) l1 = true ->
  forall k, k ∈ l1 -> k ∈ l2.
Proof.
  intros H k Hk%list_elem_of_In.
  rewrite forallb_forall in H. specialize (H k Hk).
  by apply bool_decide_eq_true_1 in H.
Qed.

Section BindingFacts.

Context (settings : Settings) (col : Collaborators).

(** A spreadsheet job taken from the queue runs the wrapper with
    [force_xlsx] at its default. *)
Lemma run_job_xls_dispatched (t : ExportType) (xf : XForm) (i : Z)
    (query : value) (options : option kwargs) (w : World) :
  route t = Some CREATE_XLS_EXPORT ->
  let args := arguments_for t xf i query options in
  run_job settings col CREATE_XLS_EXPORT args w
  = create_xls_export col (VStr (username (user xf)))
      (VStr (id_string xf)) i query (VBool true)
      (arg args "group_delimiter" (VStr "/"))
      (arg args "split_select_multiples" (VBool true))
      (arg args "binary_select_multiples" (VBool false)) w.
Proof.
  intros Hroute args.
  assert (relevant_keys t
          = ["group_delimiter"; "split_select_multiples";
             "binary_select_multiples"]) as Hrel
    by (destruct t; try discriminate; reflexivity).
  assert (args !! "username" = Some (VStr (username (user xf)))) as Hu
    by (unfold args; rewrite arguments_for_base by (rewrite Hrel; not_in_list);
        reflexivity).
  assert (args !! "id_string" = Some (VStr (id_string xf))) as Hs
    by (unfold args; rewrite arguments_for_base by (rewrite Hrel; not_in_list);
        reflexivity).
  assert (args !! "export_id" = Some (VInt i)) as Hi
    by (unfold args; rewrite arguments_for_base by (rewrite Hrel; not_in_list);
        reflexivity).
  assert (args !! "query" = Some query) as Hq
    by (unfold args; rewrite arguments_for_base by (rewrite Hrel; not_in_list);
        reflexivity).
  assert (args !! "force_xlsx" = None) as Hf
    by (unfold args; rewrite arguments_for_base by (rewrite Hrel; not_in_list);
        reflexivity).
  simpl.
  rewrite accepts_true.
  - unfold bind, arg_export_id, arg. rewrite Hi, Hu, Hs, Hq, Hf. reflexivity.
  - repeat constructor; [rewrite Hu|rewrite Hs|rewrite Hi]; eauto.
  - intros k Hk. apply arguments_for_keys in Hk. rewrite Hrel in Hk.
    revert k Hk. apply sublist_by_compute. vm_compute. reflexivity.
Qed.

End BindingFacts.

(** ** The dispatcher *)

Section DispatcherFacts.

Context (settings : Settings) (col : Collaborators).

(** The dispatcher, branch by branch. *)
Lemma create_async_export_eq (xf : XForm) (t : ExportType)
    (query force_xlsx : value) (options : option kwargs) (w : World) :
  create_async_export settings col xf t query force_xlsx options w
  = dispatch_with settings col xf t
      (arguments_for t xf (new_id (store w)) query options) w.
Proof.
  unfold dispatch_with.
  set (e0 := new_export xf t (store w)). set (w0 := created_world xf t w).
  unfold create_async_export, arguments_for, base_arguments.
  destruct t; simpl.
  all: unfold bind at 1; unfold Export_objects_create at 1; simpl.
  all: try reflexivity.
  all: unfold bind; unfold w0, created_world, e0, new_export; simpl.
  all: match goal with
       | |- context [apply_async ?s ?r ?j ?a ?n ?w1] =>
           destruct (apply_async s r j a n w1) as [[result|e] w2]
       end; [|reflexivity].
  all: unfold Export_objects_get, Export_save, ret, stamped; simpl.
  all: destruct (CELERY_ALWAYS_EAGER settings); simpl; [|reflexivity].
  all: destruct (store w2 !! new_id (store w)); reflexivity.
Qed.

(** A queued task logs task events only, whatever its arguments. *)
Lemma run_job_log (j : job) (kw : kwargs) (w : World) :
  exists rest,
    log (snd (run_job settings col j kw w)) = log w ++ rest
    /\ Forall task_event rest.
Proof.
  assert (forall c, exists rest,
            log (snd (invoke settings col c w)) = log w ++ rest
            /\ Forall task_event rest) as Hinv.
  { intros c. destruct (invoke_log settings col c w) as (rest & H1 & H2 & _).
    eauto. }
  assert (exists rest : list event,
            log w = log w ++ rest /\ Forall task_event rest) as Hnil.
  { exists []. by rewrite app_nil_r. }
  destruct j; simpl.
  1-7: match goal with |- context [accepts ?r ?o ?k] =>
         destruct (accepts r o k) end; [|exact Hnil];
       unfold bind, arg_export_id;
       destruct (kw !! "export_id") as [[| |i|]|]; try exact Hnil; simpl.
  - apply (Hinv (Call_xls _ _ _ _ _ _ _ _)).
  - apply (Hinv (Call_csv _ _ _ _ _ _ _)).
  - apply (Hinv (Call_kml _ _ _ _)).
  - apply (Hinv (Call_zip _ _ _ _)).
  - apply (Hinv (Call_csv_zip _ _ _ _ _ _ _)).
  - apply (Hinv (Call_sav_zip _ _ _ _ _ _ _)).
  - apply (Hinv (Call_external _ _ _ _ _ _)).
  - unfold run_delete_export.
    destruct (accepts ["export_id"] [] kw); [|exact Hnil].
    unfold bind, arg_export_id.
    destruct (kw !! "export_id") as [[| |i|]|]; try exact Hnil; simpl.
    rewrite delete_export_eq.
    destruct (store w !! i); [|exact Hnil]. simpl.
    eexists; split; [reflexivity|]. repeat constructor.
Qed.

End DispatcherFacts.

(** C5. For an export type outside the eight the dispatcher routes, the
    dispatch raises [ExportTypeError], submits no job, and leaves the record
    it had already created in the table, PENDING and without a task id. *)
Theorem unsupported_type_dispatch (settings : Settings)
    (col : Collaborators) (xf : XForm) (t : ExportType)
    (query force_xlsx : value) (options : option kwargs) (w : World) :
  supported t = false ->
  let e0 := new_export xf t (store w) in
  let out :=
    create_async_export settings col xf t query force_xlsx options w in
  out = (Raise ExportTypeError,
         {| store := <[id e0 := row e0]> (store w);
            next_task := next_task w;
            log := log w ++ [EvCreate e0] |})
  /\ store w !! id e0 = None
  /\ store (snd out) !! id e0 = Some (row e0)
  /\ internal_status e0 = PENDING
  /\ task_id e0 = None
  /\ filter is_submit (log (snd out)) = filter is_submit (log w).
Proof.
  intros Hsup e0 out.
  assert (out = (Raise ExportTypeError, created_world xf t w)) as Hout.
  { unfold out. rewrite create_async_export_eq. unfold dispatch_with.
    unfold supported in Hsup. destruct (route t); [discriminate|].
    reflexivity. }
  rewrite Hout. unfold created_world; fold e0; simpl.
  split; [reflexivity|]. split; [apply new_id_fresh|].
  split; [apply lookup_insert_eq|]. split; [reflexivity|].
  split; [reflexivity|].
  rewrite filter_app. simpl. by rewrite app_nil_r.
Qed.

Lemma unsupported_type_dispatch_witness :
  create_async_export Fixtures.production Fixtures.col_ok Fixtures.survey
    (OTHER_EXPORT "sav") VNone (VBool false) None Fixtures.empty_world
  = (Raise ExportTypeError,
     {| store := {[ 1 := Fixtures.pending_row (OTHER_EXPORT "sav") ]};
        next_task := 0;
        log := [EvCreate {| id := 1;
                            row := Fixtures.pending_row
                                     (OTHER_EXPORT "sav") |}] |}).
Proof.
  exact (proj1 (unsupported_type_dispatch Fixtures.production
                  Fixtures.col_ok Fixtures.survey (OTHER_EXPORT "sav")
                  VNone (VBool false) None Fixtures.empty_world eq_refl)).
Defined.

(** C4. For a supported export type the dispatch creates exactly one
    record, under a key not in use, and submits exactly one export job with
    countdown 10.  With a queue that is not eager it always succeeds; with
    an eager queue it reads the record again after the job has run and
    stamps that copy.  Whenever it returns a pair, the record carries the
    task id of the handle, and that record is the one saved last. *)
Theorem dispatch_supported (settings : Settings) (col : Collaborators)
    (xf : XForm) (t : ExportType) (query force_xlsx : value)
    (options : option kwargs) (w : World) (j : job) :
  route t = Some j ->
  let e0 := new_export xf t (store w) in
  let tid := next_task w in
  let result := {| result_task_id := tid |} in
  let args := arguments_for t xf (id e0) query options in
  let submitted := [EvCreate e0; EvSubmit j args 10 tid] in
  let w1 := {| store := <[id e0 := row e0]> (store w);
               next_task := S tid;
               log := log w ++ submitted |} in
  let out :=
    create_async_export settings col xf t query force_xlsx options w in
  store w !! id e0 = None
  /\ (exists rest,
        log (snd out) = log w ++ submitted ++ rest
        /\ Forall task_event rest)
  /\ (CELERY_ALWAYS_EAGER settings = false ->
      out = stamped e0 result w1)
  /\ (CELERY_ALWAYS_EAGER settings = true ->
      let ran := run_job settings col j args w1 in
      let read_again :=
        match store (snd ran) !! id e0 with
        | Some r2 =>
            out = stamped {| id := id e0; row := r2 |} result (snd ran)
        | None => out = (Raise DoesNotExist, snd ran)
        end in
      match fst ran with
      | Raise e =>
          if CELERY_EAGER_PROPAGATES_EXCEPTIONS settings
          then out = (Raise e, snd ran) else read_again
      | Ok _ => read_again
      end)
  /\ (forall export res,
        fst out = Ok (Some (export, res)) ->
        res = result
        /\ id export = id e0
        /\ task_id export = Some (result_task_id res)
        /\ store (snd out) !! id export = Some (row export)
        /\ last (log (snd out)) = Some (EvSave export))
  /\ fst out <> Ok None.
Proof.
  intros Hroute e0 tid result args submitted w1 out.
  set (w1' := {| store := <[id e0 := row e0]> (store w);
                 next_task := S tid;
                 log := (log w ++ [EvCreate e0])
                        ++ [EvSubmit j args 10 tid] |}).
  assert (w1' = w1) as Hw by (unfold w1', w1, submitted; by norm_log).
  assert (out
    = if CELERY_ALWAYS_EAGER settings then
        match
          match run_job settings col j args w1' with
          | (Ok _, w2) => (Ok result, w2)
          | (Raise e, w2) =>
              if CELERY_EAGER_PROPAGATES_EXCEPTIONS settings
              then (Raise e, w2) else (Ok result, w2)
          end
        with
        | (Ok res, w2) =>
            match store w2 !! id e0 with
            | Some r2 => stamped {| id := id e0; row := r2 |} res w2
            | None => (Raise DoesNotExist, w2)
            end
        | (Raise e, w2) => (Raise e, w2)
        end
      else stamped e0 result w1') as Heq.
  { unfold out. rewrite create_async_export_eq. unfold dispatch_with.
    rewrite Hroute. unfold apply_async.
    destruct (CELERY_ALWAYS_EAGER settings); reflexivity. }
  rewrite Hw in Heq. clear w1' Hw.
  split; [apply new_id_fresh|].
  destruct (CELERY_ALWAYS_EAGER settings) eqn:Heager.
  - (* eager queue *)
    destruct (run_job_log settings col j args w1) as (rest & Hlog & Hrest).
    destruct (run_job settings col j args w1) as [rj w2] eqn:Hran.
    simpl in Hlog.
    assert (match store w2 !! id e0 with
            | Some r2 => stamped {| id := id e0; row := r2 |} result w2
            | None => (Raise DoesNotExist, w2)
            end = out ->
            (exists rest0,
               log (snd out) = log w ++ submitted ++ rest0
               /\ Forall task_event rest0)
            /\ (forall export res,
                  fst out = Ok (Some (export, res)) ->
                  res = result
                  /\ id export = id e0
                  /\ task_id export = Some (result_task_id res)
                  /\ store (snd out) !! id export = Some (row export)
                  /\ last (log (snd out)) = Some (EvSave export))
            /\ fst out <> Ok None) as Hread.
    { intros <-. destruct (store w2 !! id e0) as [r2|]; simpl.
      - split; [|split].
        + eexists. rewrite Hlog. unfold w1; simpl. norm_log.
          split; [reflexivity|].
          apply Forall_app; split; [exact Hrest|repeat constructor].
        + intros export res [= <- <-]. simpl.
          repeat split; try reflexivity.
          * apply lookup_insert_eq.
          * apply last_snoc.
        + discriminate.
      - split; [|split].
        + exists rest. rewrite Hlog. unfold w1; simpl. norm_log.
          split; [reflexivity|exact Hrest].
        + intros export res [=].
        + discriminate. }
    assert (forall e, out = (Raise e, w2) ->
            (exists rest0,
               log (snd out) = log w ++ submitted ++ rest0
               /\ Forall task_event rest0)
            /\ (forall export res,
                  fst out = Ok (Some (export, res)) ->
                  res = result
                  /\ id export = id e0
                  /\ task_id export = Some (result_task_id res)
                  /\ store (snd out) !! id export = Some (row export)
                  /\ last (log (snd out)) = Some (EvSave export))
            /\ fst out <> Ok None) as Hraise.
    { intros e ->. simpl. split; [|split].
      - exists rest. rewrite Hlog. unfold w1; simpl. norm_log.
        split; [reflexivity|exact Hrest].
      - intros export res [=].
      - discriminate. }
    assert (match rj with
            | Raise e =>
                if CELERY_EAGER_PROPAGATES_EXCEPTIONS settings
                then out = (Raise e, w2)
                else match store w2 !! id e0 with
                     | Some r2 =>
                         stamped {| id := id e0; row := r2 |} result w2
                     | None => (Raise DoesNotExist, w2)
                     end = out
            | Ok _ => match store w2 !! id e0 with
                      | Some r2 =>
                          stamped {| id := id e0; row := r2 |} result w2
                      | None => (Raise DoesNotExist, w2)
                      end = out
            end) as Hcase.
    { destruct rj as [v|e]; [by rewrite Heq|].
      destruct (CELERY_EAGER_PROPAGATES_EXCEPTIONS settings);
        by rewrite Heq. }
    assert ((exists rest0,
               log (snd out) = log w ++ submitted ++ rest0
               /\ Forall task_event rest0)
            /\ (forall export res,
                  fst out = Ok (Some (export, res)) ->
                  res = result
                  /\ id export = id e0
                  /\ task_id export = Some (result_task_id res)
                  /\ store (snd out) !! id export = Some (row export)
                  /\ last (log (snd out)) = Some (EvSave export))
            /\ fst out <> Ok None) as (H1 & H2 & H3).
    { destruct rj as [v|e]; [exact (Hread Hcase)|].
      destruct (CELERY_EAGER_PROPAGATES_EXCEPTIONS settings);
        [exact (Hraise e Hcase)|exact (Hread Hcase)]. }
    split; [exact H1|]. split; [discriminate|].
    split; [|split; [exact H2|exact H3]].
    intros _. cbv zeta. cbn [fst snd].
    destruct rj as [v|e].
    + destruct (store w2 !! id e0); symmetry; exact Hcase.
    + destruct (CELERY_EAGER_PROPAGATES_EXCEPTIONS settings);
        [exact Hcase|].
      destruct (store w2 !! id e0); symmetry; exact Hcase.
  - (* the job waits in the queue *)
    rewrite Heq. unfold stamped; simpl.
    split; [|split; [reflexivity|split; [discriminate|split]]].
    + eexists. norm_log. split; [reflexivity|]. repeat constructor.
    + intros export res [= <- <-]. simpl.
      repeat split; try reflexivity.
      * apply lookup_insert_eq.
      * apply last_snoc.
    + discriminate.
Qed.

Lemma dispatch_supported_witness :
  create_async_export Fixtures.production Fixtures.col_ok Fixtures.survey
    CSV_EXPORT VNone (VBool false) (Some {[ "group_delimiter" := VStr "|" ]})
    Fixtures.empty_world
  = stamped (new_export Fixtures.survey CSV_EXPORT ∅)
      {| result_task_id := 0 |}
      {| store := {[ 1 := Fixtures.pending_row CSV_EXPORT ]};
         next_task := 1;
         log := [EvCreate (new_export Fixtures.survey CSV_EXPORT ∅);
                 EvSubmit CREATE_CSV_EXPORT
                   (<[ "group_delimiter" := VStr "|" ]>
                      (base_arguments Fixtures.survey 1 VNone))
                   10 0] |}.
Proof.
  exact (proj1 (proj2 (proj2
    (dispatch_supported Fixtures.production Fixtures.col_ok
       Fixtures.survey CSV_EXPORT VNone (VBool false)
       (Some {[ "group_delimiter" := VStr "|" ]}) Fixtures.empty_world
       CREATE_CSV_EXPORT eq_refl))) eq_refl).
Defined.

(** C9. The argument set handed to the job is the four base entries
    overlaid with those options whose keys apply to the export type; every
    other option key is left out, and removing such keys from [options]
    beforehand changes nothing about the dispatch, so their presence is
    never the cause of a failure. *)
Theorem irrelevant_options_dropped (settings : Settings)
    (col : Collaborators) (xf : XForm) (t : ExportType)
    (query force_xlsx : value) (options : option kwargs) (w : World) :
  let i := new_id (store w) in
  let arguments :=
    filter (fun kv : string * value => kv.1 ∈ relevant_keys t)
           (default ∅ options)
    ∪ base_arguments xf i query in
  create_async_export settings col xf t query force_xlsx options w
  = dispatch_with settings col xf t arguments w
  /\ (forall k, k ∉ relevant_keys t ->
        arguments !! k = base_arguments xf i query !! k)
  /\ (forall k, is_Some (arguments !! k) ->
        k ∈ base_keys ++ relevant_keys t)
  /\ create_async_export settings col xf t query force_xlsx options w
     = create_async_export settings col xf t query force_xlsx
         (relevant_only t options) w.
Proof.
  intros i arguments. unfold arguments, i.
  rewrite <- arguments_for_union.
  split; [apply create_async_export_eq|].
  split; [intros k; apply arguments_for_base|].
  split; [intros k; apply arguments_for_keys|].
  by rewrite !create_async_export_eq, arguments_for_relevant_only.
Qed.

Lemma irrelevant_options_dropped_witness :
  let options : kwargs :=
    {[ "group_delimiter" := VStr "|"; "token" := VStr "secret" ]} in
  create_async_export Fixtures.production Fixtures.col_ok Fixtures.survey
    ZIP_EXPORT VNone (VBool false) (Some options) Fixtures.empty_world
  = dispatch_with Fixtures.production Fixtures.col_ok Fixtures.survey
      ZIP_EXPORT (base_arguments Fixtures.survey 1 VNone)
      Fixtures.empty_world
  /\ base_arguments Fixtures.survey 1 VNone !! "group_delimiter" = None.
Proof.
  intros options.
  destruct (irrelevant_options_dropped Fixtures.production Fixtures.col_ok
              Fixtures.survey ZIP_EXPORT VNone (VBool false) (Some options)
              Fixtures.empty_world) as (H1 & H2 & _).
  split.
  - rewrite H1. vm_compute. reflexivity.
  - etransitivity;
      [symmetry; exact (H2 "group_delimiter" ltac:(not_in_list))|].
    vm_compute. reflexivity.
Defined.

(** C10. The dispatcher never puts [force_xlsx] in the argument set,
    whatever flag and options it is given, so a spreadsheet job taken from
    the queue runs the wrapper with [force_xlsx=True] and calls the
    generator with extension [xlsx]; called directly, the wrapper asks for
    [xls] exactly when [force_xlsx] is false. *)
Theorem force_xlsx_not_forwarded (settings : Settings)
    (col : Collaborators) (xf : XForm) (t : ExportType)
    (query force_xlsx : value) (options : option kwargs) (w : World) :
  let i := new_id (store w) in
  let args := arguments_for t xf i query options in
  let u := VStr (username (user xf)) in
  let s := VStr (id_string xf) in
  create_async_export settings col xf t query force_xlsx options w
  = dispatch_with settings col xf t args w
  /\ args !! "force_xlsx" = None
  /\ (t = XLS_EXPORT \/ t = GDOC_EXPORT ->
      route t = Some CREATE_XLS_EXPORT
      /\ forall w',
           run_job settings col CREATE_XLS_EXPORT args w'
           = create_xls_export col u s i query (VBool true)
               (arg args "group_delimiter" (VStr "/"))
               (arg args "split_select_multiples" (VBool true))
               (arg args "binary_select_multiples" (VBool false)) w'
           /\ (is_Some (store w' !! i) ->
               exists rest,
                 log (snd (run_job settings col CREATE_XLS_EXPORT args w'))
                 = log w'
                   ++ EvGenerate
                        (Generate_export XLS_EXPORT "xlsx" u s i query
                           (arg args "group_delimiter" (VStr "/"))
                           (arg args "split_select_multiples" (VBool true))
                           (arg args "binary_select_multiples"
                              (VBool false)))
                      :: rest))
  /\ (forall u' s' i' q f g sp b w',
        is_Some (store w' !! i') ->
        exists rest,
          log (snd (create_xls_export col u' s' i' q f g sp b w'))
          = log w'
            ++ EvGenerate
                 (Generate_export XLS_EXPORT
                    (if truthy f then "xlsx" else "xls") u' s' i' q g sp b)
               :: rest).
Proof.
  intros i args u s.
  assert (forall u' s' i' q f g sp b w',
            is_Some (store w' !! i') ->
            exists rest,
              log (snd (create_xls_export col u' s' i' q f g sp b w'))
              = log w'
                ++ EvGenerate
                     (Generate_export XLS_EXPORT
                        (if truthy f then "xlsx" else "xls") u' s' i' q g
                        sp b)
                   :: rest) as Hdirect.
  { intros u' s' i' q f g sp b w' Hget.
    destruct (invoke_log settings col (Call_xls u' s' i' q f g sp b) w')
      as (rest & Hlog & _ & Hfirst).
    destruct (Hfirst Hget) as (rest' & ->).
    exists rest'. simpl in Hlog. rewrite Hlog.
    destruct (truthy f); reflexivity. }
  split; [apply create_async_export_eq|].
  split.
  { unfold args. rewrite arguments_for_lookup.
    case_bool_decide as Hk; [|reflexivity].
    exfalso. revert Hk. destruct t; simpl; not_in_list. }
  split; [|exact Hdirect].
  intros Ht.
  assert (route t = Some CREATE_XLS_EXPORT) as Hroute
    by (destruct Ht as [-> | ->]; reflexivity).
  split; [exact Hroute|]. intros w'.
  pose proof (run_job_xls_dispatched settings col t xf i query options w'
                Hroute) as Hrun.
  fold args u s in Hrun. split; [exact Hrun|].
  intros Hget. rewrite Hrun.
  destruct (Hdirect u s i query (VBool true)
              (arg args "group_delimiter" (VStr "/"))
              (arg args "split_select_multiples" (VBool true))
              (arg args "binary_select_multiples" (VBool false)) w' Hget)
    as (rest & Hlog).
  exists rest. exact Hlog.
Qed.

Lemma force_xlsx_not_forwarded_witness :
  let w :=
    {| store := {[ 1 := Fixtures.pending_row XLS_EXPORT ]};
       next_task := 1; log := [] |} in
  let args := arguments_for XLS_EXPORT Fixtures.survey 1 VNone None in
  log (snd (run_job Fixtures.production Fixtures.col_ok CREATE_XLS_EXPORT
              args w))
  = [EvGenerate
       (Generate_export XLS_EXPORT "xlsx" (VStr "bob") (VStr "survey") 1
          VNone (VStr "/") (VBool true) (VBool false))].
Proof.
  intros w args.
  destruct (force_xlsx_not_forwarded Fixtures.production Fixtures.col_ok
              Fixtures.survey XLS_EXPORT VNone (VBool false) None
              Fixtures.empty_world) as (_ & _ & Hxls & _).
  destruct (Hxls (or_introl eq_refl)) as (_ & Hrun).
  destruct (Hrun w) as (Heq & _).
  change (arguments_for XLS_EXPORT Fixtures.survey
            (new_id (store Fixtures.empty_world)) VNone None)
    with args in Heq.
  rewrite Heq. vm_compute. reflexivity.
Defined.

(** ** The pattern matcher *)

Lemma matches_at_In (ic : bool) (r : regex) (s : string) :
  matches_at ic r s = true <-> exists rest, In rest (rmatch ic r s).
Proof.
  unfold matches_at. destruct (rmatch ic r s) as [|x l]; split.
  - discriminate.
  - intros [rest []].
  - intros _. exists x. by left.
  - reflexivity.
Qed.

Lemma append_nil_l (s : string) : "" +:+ s = s.
Proof. reflexivity. Qed.

Lemma append_cons (c : ascii) (a b : string) :
  String c a +:+ b = String c (a +:+ b).
Proof. reflexivity. Qed.

Lemma search_spec (ic : bool) (r : regex) (s : string) :
  search ic r s = true
  <-> exists pre suf, s = pre +:+ suf /\ matches_at ic r suf = true.
Proof.
  induction s as [|c s IH]; simpl.
  - rewrite orb_false_r. split.
    + intros H. exists "", "". by split.
    + intros (pre & suf & Hs & H).
      destruct pre; [|discriminate]. rewrite append_nil_l in Hs.
      by subst suf.
  - rewrite orb_true_iff, IH. split.
    + intros [H|(pre & suf & -> & H)].
      * exists "", (String c s). by split.
      * exists (String c pre), suf. by split.
    + intros (pre & suf & Hs & H). destruct pre as [|d pre].
      * rewrite append_nil_l in Hs. subst suf. by left.
      * rewrite append_cons in Hs. injection Hs as -> ->. right. eauto.
Qed.

Lemma rmatch_Seq (ic : bool) (r1 r2 : regex) (s rest : string) :
  In rest (rmatch ic (Seq r1 r2) s)
  <-> exists mid, In mid (rmatch ic r1 s) /\ In rest (rmatch ic r2 mid).
Proof. simpl. apply in_flat_map. Qed.

Lemma rmatch_Lit (ic : bool) (p s rest : string) :
  In rest (rmatch ic (Lit p) s) <-> match_lit ic p s = Some rest.
Proof.
  simpl. destruct (match_lit ic p s) as [x|]; simpl; split.
  - intros [->|[]]. reflexivity.
  - intros [= ->]. by left.
  - intros [].
  - discriminate.
Qed.

Lemma rmatch_Opt (ic : bool) (r : regex) (s rest : string) :
  In rest (rmatch ic (Opt r) s) <-> In rest (rmatch ic r s) \/ rest = s.
Proof.
  simpl. rewrite in_app_iff. simpl. split.
  - intros [H|[H|[]]]; eauto.
  - intros [H| ->]; eauto.
Qed.

Lemma rmatch_Cls (ic : bool) (lo hi : ascii) (s rest : string) :
  In rest (rmatch ic (Cls lo hi) s)
  <-> exists d, s = String d rest /\ cls_mem ic lo hi d = true.
Proof.
  simpl. destruct s as [|d s'].
  - split; [intros []|intros (d & H & _); discriminate].
  - destruct (cls_mem ic lo hi d) eqn:E; simpl; split.
    + intros [->|[]]. eauto.
    + intros (d' & [= -> ->] & _). by left.
    + intros [].
    + intros (d' & [= -> ->] & H). congruence.
Qed.

(** [r+] matches at the head of [s] exactly when [r] does. *)
Lemma rmatch_Plus_nonempty (ic : bool) (r : regex) (s : string) :
  (exists rest, In rest (rmatch ic (Plus r) s))
  <-> exists rest, In rest (rmatch ic r s).
Proof.
  simpl. split.
  - intros (rest & H). apply in_flat_map in H as (s1 & Hs1 & _). eauto.
  - intros (s1 & Hs1). exists s1. apply in_flat_map.
    exists s1. split; [exact Hs1|]. by left.
Qed.

Lemma match_lit_spec (p s rest : string) :
  match_lit true p s = Some rest
  <-> exists l, s = l +:+ rest /\ casefold l = casefold p.
Proof.
  revert s. induction p as [|c p IH]; intros s; simpl.
  - split.
    + intros [= ->]. exists "". by split.
    + intros (l & -> & Hl). destruct l; [reflexivity|discriminate].
  - destruct s as [|d s'].
    + split; [discriminate|].
      intros (l & Hs & Hl). destruct l; discriminate.
    + unfold chr_eq. destruct (Ascii.eqb_spec (lower c) (lower d)) as [E|E].
      * rewrite IH. split.
        -- intros (l & -> & Hl). exists (String d l).
           split; [reflexivity|]. simpl. by rewrite Hl, E.
        -- intros (l & Hs & Hl). destruct l as [|d' l]; [discriminate|].
           rewrite append_cons in Hs. simpl in Hl.
           injection Hs as -> ->. injection Hl as _ Hl. eauto.
      * split; [discriminate|].
        intros (l & Hs & Hl). destruct l as [|d' l]; [discriminate|].
        rewrite append_cons in Hs. simpl in Hl.
        injection Hs as -> ->. injection Hl as Hd _. congruence.
Qed.

Lemma lower_minus (d : ascii) : lower "-" = lower d -> d = "-"%char.
Proof.
  destruct d as [[] [] [] [] [] [] [] []]; vm_compute; intros H;
    first [reflexivity | discriminate H].
Qed.

Lemma cls_mem_digit (d : ascii) :
  cls_mem true "1" "9" d = in_range "1" "9" d.
Proof. destruct d as [[] [] [] [] [] [] [] []]; reflexivity. Qed.

(** What [REMONGO_PATTERN] finds: the literal in any letter case, an
    optional minus sign, and a digit from 1 to 9, anywhere in the text. *)
Lemma REMONGO_PATTERN_search_spec (s : string) :
  REMONGO_PATTERN_search s = true
  <-> exists pre lit sign d rest,
        s = pre +:+ lit +:+ sign +:+ String d rest
        /\ casefold lit = casefold "Total # of records to remongo: "
        /\ (sign = "" \/ sign = "-")
        /\ in_range "1" "9" d = true.
Proof.
  unfold REMONGO_PATTERN_search, REMONGO_PATTERN.
  rewrite search_spec. split.
  - intros (pre & suf & -> & H).
    apply matches_at_In in H as (rest & H).
    apply rmatch_Seq in H as (mid & Hlit & H).
    apply rmatch_Lit, match_lit_spec in Hlit as (lit & -> & Hlit).
    apply rmatch_Seq in H as (mid2 & Hopt & H).
    assert (exists rest', In rest' (rmatch true (Plus (Cls "1" "9")) mid2))
      as Hplus by eauto.
    apply (proj1 (rmatch_Plus_nonempty _ _ _)) in Hplus as (rest' & Hcls).
    apply rmatch_Cls in Hcls as (d & -> & Hd).
    rewrite cls_mem_digit in Hd.
    apply rmatch_Opt in Hopt as [Hminus|Hnone].
    + apply rmatch_Lit in Hminus.
      destruct mid as [|m mid]; [discriminate|].
      cbn [match_lit] in Hminus. unfold chr_eq in Hminus.
      destruct (Ascii.eqb_spec (lower "-") (lower m)) as [E|E];
        [|discriminate].
      injection Hminus as ->. apply lower_minus in E as ->.
      exists pre, lit, "-", d, rest'. auto.
    + subst mid. exists pre, lit, "", d, rest'. auto.
  - intros (pre & lit & sign & d & rest & -> & Hlit & Hsign & Hd).
    exists pre, (lit +:+ sign +:+ String d rest). split; [reflexivity|].
    apply matches_at_In.
    assert (exists r0, In r0 (rmatch true (Plus (Cls "1" "9"))
                                (String d rest))) as (r0 & Hplus).
    { apply rmatch_Plus_nonempty. exists rest. apply rmatch_Cls.
      exists d. by rewrite cls_mem_digit. }
    exists r0. apply rmatch_Seq. exists (sign +:+ String d rest). split.
    + apply rmatch_Lit, match_lit_spec. eauto.
    + apply rmatch_Seq. exists (String d rest). split; [|exact Hplus].
      apply rmatch_Opt. destruct Hsign as [-> | ->].
      * by right.
      * left. apply rmatch_Lit. reflexivity.
Qed.

(** ** The synchronisation report *)

Lemma email_mongo_sync_status_eq (col : Collaborators) (w : World)
    (before_report : string) :
  mongo_sync_status col false = Ok before_report ->
  email_mongo_sync_status col w
  = let sync := REMONGO_PATTERN_search before_report in
    match (if sync then mongo_sync_status col true
           else Ok "No synchronization needed") with
    | Ok after_report =>
        (Ok VNone,
         {| store := store w; next_task := next_task w;
            log := log w
                   ++ EvProbe false
                      :: (if sync then [EvProbe true] else [])
                   ++ [EvMail "Mongo DB sync status"
                         (before_report +:+ newline +:+ newline
                          +:+ after_report +:+ newline +:+ newline
                          +:+ SYNC_MONGO_MANUAL_INSTRUCTIONS)] |})
    | Raise e =>
        (Raise e,
         {| store := store w; next_task := next_task w;
            log := log w ++ [EvProbe false; EvProbe true] |})
    end.
Proof.
  intros Hbefore.
  unfold email_mongo_sync_status, call_mongo_sync_status. unfold_ops.
  rewrite Hbefore. simpl.
  destruct (REMONGO_PATTERN_search before_report); simpl.
  - destruct (mongo_sync_status col true) as [after_report|e]; simpl;
      norm_log; reflexivity.
  - norm_log. reflexivity.
Qed.

(** C7. The reporter calls the probe again with the reconcile flag exactly
    when the first report matches [REMONGO_PATTERN] (the literal in any
    letter case, an optional minus sign, a digit from 1 to 9); otherwise
    the second report is the literal "No synchronization needed"; either
    way it sends one mail whose body is the two reports and the manual
    instructions joined by blank lines. *)
Theorem sync_status_report (col : Collaborators) (w : World)
    (before_report : string) :
  mongo_sync_status col false = Ok before_report ->
  let out := email_mongo_sync_status col w in
  let body after_report :=
    before_report +:+ newline +:+ newline +:+ after_report
      +:+ newline +:+ newline +:+ SYNC_MONGO_MANUAL_INSTRUCTIONS in
  (REMONGO_PATTERN_search before_report = true ->
   forall after_report,
     mongo_sync_status col true = Ok after_report ->
     out = (Ok VNone,
            {| store := store w; next_task := next_task w;
               log := log w
                      ++ [EvProbe false; EvProbe true;
                          EvMail "Mongo DB sync status"
                            (body after_report)] |}))
  /\ (REMONGO_PATTERN_search before_report = false ->
      out = (Ok VNone,
             {| store := store w; next_task := next_task w;
                log := log w
                       ++ [EvProbe false;
                           EvMail "Mongo DB sync status"
                             (body "No synchronization needed")] |}))
  /\ (forall new_events,
        log (snd out) = log w ++ new_events ->
        (EvProbe true ∈ new_events
         <-> REMONGO_PATTERN_search before_report = true))
  /\ (REMONGO_PATTERN_search before_report = true
      <-> exists pre lit sign d rest,
            before_report = pre +:+ lit +:+ sign +:+ String d rest
            /\ casefold lit = casefold "Total # of records to remongo: "
            /\ (sign = "" \/ sign = "-")
            /\ in_range "1" "9" d = true).
Proof.
  intros Hbefore out body.
  pose proof (email_mongo_sync_status_eq col w before_report Hbefore) as Heq.
  fold out in Heq. cbv zeta in Heq.
  split; [|split; [|split; [|apply REMONGO_PATTERN_search_spec]]].
  - intros Hsync after_report Hafter.
    rewrite Hsync, Hafter in Heq. exact Heq.
  - intros Hsync. rewrite Hsync in Heq. exact Heq.
  - intros new_events Hlog. rewrite Heq in Hlog.
    destruct (REMONGO_PATTERN_search before_report).
    + split; [reflexivity|]. intros _.
      destruct (mongo_sync_status col true); simpl in Hlog;
        apply app_inv_head in Hlog; subst new_events;
        apply list_elem_of_further, list_elem_of_here.
    + split; [|discriminate]. intros Hin. simpl in Hlog.
      apply app_inv_head in Hlog. subst new_events.
      apply elem_of_cons in Hin as [Hin|Hin]; [discriminate|].
      apply list_elem_of_singleton in Hin. discriminate.
Qed.

Lemma sync_status_report_witness :
  email_mongo_sync_status Fixtures.col_ok Fixtures.empty_world
  = (Ok VNone,
     {| store := ∅; next_task := 0;
        log := [EvProbe false; EvProbe true;
                EvMail "Mongo DB sync status"
                  ("Total # of records to remongo: 5" +:+ newline
                   +:+ newline +:+ "Total # of records to remongo: 0"
                   +:+ newline +:+ newline
                   +:+ SYNC_MONGO_MANUAL_INSTRUCTIONS)] |}).
Proof.
  exact (proj1 (sync_status_report Fixtures.col_ok Fixtures.empty_world
                  "Total # of records to remongo: 5" eq_refl)
           eq_refl "Total # of records to remongo: 0" eq_refl).
Defined.

Example sync_status_in_sync :
  email_mongo_sync_status Fixtures.col_in_sync Fixtures.empty_world
  = (Ok VNone,
     {| store := ∅; next_task := 0;
        log := [EvProbe false;
                EvMail "Mongo DB sync status"
                  ("Total # of records to remongo: 0" +:+ newline
                   +:+ newline +:+ "No synchronization needed"
                   +:+ newline +:+ newline
                   +:+ SYNC_MONGO_MANUAL_INSTRUCTIONS)] |}).
Proof. vm_compute. reflexivity. Qed.

(** ** Scenarios *)

(** A CSV export of a form without submissions, on an eager queue: the job
    runs inside the dispatch, the generator raises [NoRecordsFoundError],
    and the record that comes back is the FAILED one, stamped with the task
    id; nothing is reported. *)
Example dispatch_csv_without_records :
  let out :=
    create_async_export Fixtures.testing
      (Fixtures.col_raising NoRecordsFoundError) Fixtures.survey CSV_EXPORT
      VNone (VBool false) (Some {[ "group_delimiter" := VStr "|" ]})
      Fixtures.empty_world in
  let failed :=
    {| id := 1;
       row := {| row_xform := Fixtures.survey;
                 row_export_type := CSV_EXPORT;
                 row_internal_status := FAILED;
                 row_task_id := Some 0%nat |} |} in
  fst out = Ok (Some (failed, {| result_task_id := 0 |}))
  /\ store (snd out) !! 1 = Some (row failed)
  /\ filter is_report (log (snd out)) = [].
Proof. vm_compute. repeat split; reflexivity. Qed.

(** An attachment-archive export in test mode: no cleanup is queued. *)
Example dispatch_zip_in_test_mode :
  filter is_submit
    (log (snd (create_async_export Fixtures.testing Fixtures.col_ok
                 Fixtures.survey ZIP_EXPORT VNone (VBool false) None
                 Fixtures.empty_world)))
  = [EvSubmit CREATE_ZIP_EXPORT (base_arguments Fixtures.survey 1 VNone)
       10 0].
Proof. vm_compute. reflexivity. Qed.

(** The same export on an eager queue outside test mode: the cleanup runs
    at once, so the dispatcher finds no record to stamp. *)
Example dispatch_zip_eager_cleanup :
  fst (create_async_export Fixtures.eager Fixtures.col_ok Fixtures.survey
         ZIP_EXPORT VNone (VBool false) None Fixtures.empty_world)
  = Raise DoesNotExist.
Proof. vm_compute. reflexivity. Qed.

(** ** More on the wrappers *)

Section WrapperOutcomes.

Context (settings : Settings) (col : Collaborators).

(** The three ways a wrapper call can go. *)
Lemma invoke_cases (c : wrapper_call) (w : World) :
  (store w !! call_export_id c = None
   /\ invoke settings col c w
      = if is_xls c then (Ok VNone, w) else (Raise DoesNotExist, w))
  \/ (exists r e s',
        store w !! call_export_id c = Some r
        /\ generate col (generator_call c) (store w) = (Raise e, s')
        /\ invoke settings col c w
           = if is_csv c && bool_decide (e = NoRecordsFoundError)
             then (Ok VNone, failed_world c r s' e false w)
             else (Raise e, failed_world c r s' e true w))
  \/ (exists r g s',
        store w !! call_export_id c = Some r
        /\ generate col (generator_call c) (store w) = (Ok g, s')
        /\ invoke settings col c w
           = (Ok (VInt (id g)), success_world settings c g s' w)).
Proof.
  destruct (store w !! call_export_id c) as [r|] eqn:Hget.
  - destruct (generate col (generator_call c) (store w)) as [[g|e] s']
      eqn:Hgen.
    + right; right. exists r, g, s'.
      eauto using invoke_generator_succeeds.
    + right; left. exists r, e, s'.
      eauto using invoke_generator_raises.
  - left. eauto using invoke_missing_record.
Qed.

Lemma cleanup_events_no_save (s : gmap Z ExportRow) (i : Z) (tid : nat)
    (e : Export) :
  EvSave e ∉ cleanup_events settings s i tid.
Proof.
  unfold cleanup_events. intros He.
  apply elem_of_cons in He as [He|He]; [discriminate|].
  destruct (CELERY_ALWAYS_EAGER settings); [|inversion He].
  destruct (s !! i); [|inversion He].
  apply list_elem_of_singleton in He. discriminate.
Qed.

End WrapperOutcomes.

(** X1. A wrapper called for an id that has no record does nothing at
    all: the world, log included, is left as it was, so no generator is
    called, nothing is written and nothing is reported.  The spreadsheet
    wrapper then returns [None]; each of the other six raises
    [DoesNotExist]. *)
Theorem missing_record_no_effect (settings : Settings)
    (col : Collaborators) (c : wrapper_call) (w : World) :
  store w !! call_export_id c = None ->
  snd (invoke settings col c w) = w
  /\ fst (invoke settings col c w)
     = if is_xls c then Ok VNone else Raise DoesNotExist.
Proof.
  intros Hget. rewrite (invoke_missing_record settings col c w Hget).
  destruct (is_xls c); split; reflexivity.
Qed.

Lemma missing_record_no_effect_witness :
  let c := Call_kml (VStr "bob") (VStr "survey") 3 VNone in
  snd (invoke Fixtures.production Fixtures.col_ok c
         (Fixtures.world7 KML_EXPORT)) = Fixtures.world7 KML_EXPORT
  /\ fst (invoke Fixtures.production Fixtures.col_ok c
            (Fixtures.world7 KML_EXPORT)) = Raise DoesNotExist.
Proof.
  intros c.
  exact (missing_record_no_effect Fixtures.production Fixtures.col_ok c
           (Fixtures.world7 KML_EXPORT) eq_refl).
Defined.

(** X2. When its generator returns, each wrapper other than the
    attachment-archive one returns the id of the export the generator
    handed back (not the id it was called with) and does nothing else: the
    table is as the generator left it and the log gains the generator call
    only. *)
Theorem plain_wrapper_success (settings : Settings) (col : Collaborators)
    (c : wrapper_call) (w : World) (r : ExportRow) (gen_export : Export)
    (s' : gmap Z ExportRow) :
  is_zip c = false ->
  store w !! call_export_id c = Some r ->
  generate col (generator_call c) (store w) = (Ok gen_export, s') ->
  invoke settings col c w
  = (Ok (VInt (id gen_export)),
     {| store := s'; next_task := next_task w;
        log := log w ++ [EvGenerate (generator_call c)] |}).
Proof.
  intros Hzip Hget Hgen.
  rewrite (invoke_generator_succeeds settings col c w r gen_export s'
             Hget Hgen).
  destruct c; try discriminate Hzip; reflexivity.
Qed.

Lemma plain_wrapper_success_witness :
  invoke Fixtures.production Fixtures.col_ok
    (Call_sav_zip (VStr "bob") (VStr "survey") 7 VNone (VStr "/")
       (VBool true) (VBool false)) (Fixtures.world7 SAV_ZIP_EXPORT)
  = (Ok (VInt 7),
     {| store := store (Fixtures.world7 SAV_ZIP_EXPORT); next_task := 0;
        log := [EvGenerate
                  (Generate_export SAV_ZIP_EXPORT "zip" (VStr "bob")
                     (VStr "survey") 7 VNone (VStr "/") (VBool true)
                     (VBool false))] |}).
Proof.
  exact (plain_wrapper_success Fixtures.production Fixtures.col_ok
           (Call_sav_zip (VStr "bob") (VStr "survey") 7 VNone (VStr "/")
              (VBool true) (VBool false)) (Fixtures.world7 SAV_ZIP_EXPORT)
           (Fixtures.pending_row SAV_ZIP_EXPORT)
           {| id := 7; row := Fixtures.pending_row SAV_ZIP_EXPORT |}
           (store (Fixtures.world7 SAV_ZIP_EXPORT))
           eq_refl eq_refl eq_refl).
Defined.

(** X3. A wrapper saves a record only when its generator raised, and what
    it saves is the record it read before calling the generator with the
    status set to FAILED: same id, form, export type and task id. *)
Theorem wrapper_saves_only_failed (settings : Settings)
    (col : Collaborators) (c : wrapper_call) (w : World)
    (new_events : list event) (e : Export) :
  log (snd (invoke settings col c w)) = log w ++ new_events ->
  EvSave e ∈ new_events ->
  exists r,
    store w !! call_export_id c = Some r
    /\ e = set_internal_status FAILED {| id := call_export_id c; row := r |}
    /\ internal_status e = FAILED
    /\ xform e = row_xform r
    /\ export_type e = row_export_type r
    /\ task_id e = row_task_id r
    /\ exists err s',
         generate col (generator_call c) (store w) = (Raise err, s').
Proof.
  intros Hlog He.
  destruct (invoke_cases settings col c w)
    as [[_ Heq]|[(r & err & s' & Hget & Hgen & Heq)
                |(r & g & s' & Hget & Hgen & Heq)]];
    rewrite Heq in Hlog.
  - exfalso. destruct (is_xls c); simpl in Hlog;
      rewrite <- (app_nil_r (log w)) in Hlog at 1;
      apply app_inv_head in Hlog; subst new_events; inversion He.
  - assert (e = set_internal_status FAILED
                  {| id := call_export_id c; row := r |}) as ->.
    { destruct (is_csv c && bool_decide (err = NoRecordsFoundError));
        simpl in Hlog; apply app_inv_head in Hlog; subst new_events;
        apply elem_of_cons in He as [He|He]; try discriminate;
        apply elem_of_cons in He as [He|He]; try (by injection He);
        simpl in He;
        try (apply list_elem_of_singleton in He; discriminate);
        inversion He. }
    exists r. repeat split; eauto.
  - exfalso. unfold success_world in Hlog.
    destruct c; simpl in Hlog; apply app_inv_head in Hlog;
      subst new_events;
      apply elem_of_cons in He as [He|He]; try discriminate;
      try (inversion He; fail).
    destruct (TESTING_MODE settings); [inversion He|].
    by apply cleanup_events_no_save in He.
Qed.

Lemma wrapper_saves_only_failed_witness :
  let c := Call_kml (VStr "bob") (VStr "survey") 7 VNone in
  let e := set_internal_status FAILED
             {| id := 7; row := Fixtures.pending_row KML_EXPORT |} in
  exists r,
    store (Fixtures.world7 KML_EXPORT) !! 7 = Some r
    /\ e = set_internal_status FAILED {| id := 7; row := r |}.
Proof.
  intros c e.
  destruct (wrapper_saves_only_failed Fixtures.production
              (Fixtures.col_raising (Exception "disk full")) c
              (Fixtures.world7 KML_EXPORT)
              [EvGenerate (generator_call c); EvSave e;
               EvReport "KML Export Exception: Export ID - 7, /bob/survey"
                 (Exception "disk full") true]
              e eq_refl
              ltac:(apply list_elem_of_further, list_elem_of_here))
    as (r & H1 & H2 & _).
  exists r. split; assumption.
Defined.

(** X4. The only job a wrapper ever submits is the cleanup: a submission
    appears in a wrapper's log only for the attachment-archive wrapper,
    outside test mode, after its generator returned, and it is
    [delete_export] for the generated export with the configured
    countdown. *)
Theorem only_cleanup_is_submitted (settings : Settings)
    (col : Collaborators) (c : wrapper_call) (w : World)
    (new_events : list event) (j : job) (kw : kwargs) (n : Z) (tid : nat) :
  log (snd (invoke settings col c w)) = log w ++ new_events ->
  EvSubmit j kw n tid ∈ new_events ->
  is_zip c = true
  /\ TESTING_MODE settings = false
  /\ j = DELETE_EXPORT
  /\ n = ZIP_EXPORT_COUNTDOWN settings
  /\ tid = next_task w
  /\ exists g s',
       generate col (generator_call c) (store w) = (Ok g, s')
       /\ kw = {[ "export_id" := VInt (id g) ]}.
Proof.
  intros Hlog He.
  destruct (invoke_cases settings col c w)
    as [[_ Heq]|[(r & err & s' & Hget & Hgen & Heq)
                |(r & g & s' & Hget & Hgen & Heq)]];
    rewrite Heq in Hlog.
  - exfalso. destruct (is_xls c); simpl in Hlog;
      rewrite <- (app_nil_r (log w)) in Hlog at 1;
      apply app_inv_head in Hlog; subst new_events; inversion He.
  - exfalso.
    destruct (is_csv c && bool_decide (err = NoRecordsFoundError));
      simpl in Hlog; apply app_inv_head in Hlog; subst new_events;
      repeat (apply elem_of_cons in He as [He|He]; [discriminate|]);
      inversion He.
  - unfold success_world in Hlog.
    destruct c; simpl in Hlog; apply app_inv_head in Hlog;
      subst new_events;
      apply elem_of_cons in He as [He|He]; try discriminate;
      try (inversion He; fail).
    destruct (TESTING_MODE settings); [inversion He|].
    unfold cleanup_events in He.
    apply elem_of_cons in He as [He|He].
    + injection He as -> -> -> ->. repeat split; eauto.
    + exfalso. destruct (CELERY_ALWAYS_EAGER settings); [|inversion He].
      destruct (s' !! id g); [|inversion He].
      apply list_elem_of_singleton in He. discriminate.
Qed.

Lemma only_cleanup_is_submitted_witness :
  let c := Call_zip (VStr "bob") (VStr "survey") 7 VNone in
  is_zip c = true /\ TESTING_MODE Fixtures.production = false.
Proof.
  intros c.
  destruct (only_cleanup_is_submitted Fixtures.production Fixtures.col_ok c
              (Fixtures.world7 ZIP_EXPORT)
              [EvGenerate (generator_call c);
               EvSubmit DELETE_EXPORT {[ "export_id" := VInt 7 ]} 3600 0]
              DELETE_EXPORT {[ "export_id" := VInt 7 ]} 3600 0 eq_refl
              ltac:(apply list_elem_of_further, list_elem_of_here))
    as (H1 & H2 & _).
  split; assumption.
Defined.

(** ** From the dispatcher to the wrapper *)

Section DispatchedJobs.

Context (settings : Settings) (col : Collaborators).

(** The argument set of every supported type binds to the signature of
    the task it is routed to. *)
Lemma run_job_dispatched (t : ExportType) (xf : XForm) (i : Z)
    (query : value) (options : option kwargs) (j : job) (w : World) :
  route t = Some j ->
  exists c,
    dispatched_call t xf i query options = Some c
    /\ run_job settings col j (arguments_for t xf i query options) w
       = invoke settings col c w.
Proof.
  intros Hroute.
  destruct t; try discriminate Hroute; injection Hroute as <-;
    (eexists; split; [reflexivity|]);
    unfold run_job; cbv beta iota zeta;
    (rewrite accepts_true;
     [ unfold bind, arg_export_id, arg, option_or;
       rewrite !arguments_for_lookup;
       repeat match goal with
              | |- context [default ∅ ?o !! ?k] =>
                  destruct (default ∅ o !! k)
              end;
       reflexivity
     | repeat constructor; rewrite arguments_for_lookup;
       match goal with
       | |- context [default ∅ ?o !! ?k] =>
           destruct (default ∅ o !! k)
       end; simpl; eauto
     | intros k Hk; apply arguments_for_keys in Hk; revert k Hk;
       apply sublist_by_compute; vm_compute; reflexivity ]).
Qed.

Lemma dispatched_call_export_id (t : ExportType) (xf : XForm) (i : Z)
    (query : value) (options : option kwargs) (c : wrapper_call) :
  dispatched_call t xf i query options = Some c -> call_export_id c = i.
Proof. destruct t; intros [= <-]; reflexivity. Qed.

End DispatchedJobs.

(** X5. Whatever the options mapping holds, the argument set the
    dispatcher builds for a supported type is accepted by the task it
    goes to: the queued job runs the wrapper with the dispatcher's owner,
    form, record id and query, with each option the dispatcher copies for
    that type when the key is in [options] (whatever its value), and with
    the wrapper's own default otherwise. *)
Theorem dispatched_job_runs_wrapper (settings : Settings)
    (col : Collaborators) (t : ExportType) (xf : XForm) (i : Z)
    (query : value) (options : option kwargs) (j : job) (w : World) :
  route t = Some j ->
  exists c,
    dispatched_call t xf i query options = Some c
    /\ call_export_id c = i
    /\ call_username c = VStr (username (user xf))
    /\ call_id_string c = VStr (id_string xf)
    /\ run_job settings col j (arguments_for t xf i query options) w
       = invoke settings col c w.
Proof.
  intros Hroute.
  destruct (run_job_dispatched settings col t xf i query options j w
              Hroute) as (c & Hc & Hrun).
  exists c. split; [exact Hc|].
  split; [by apply dispatched_call_export_id in Hc|].
  split; [|split; [|exact Hrun]];
    destruct t; try discriminate Hc; injection Hc as <-; reflexivity.
Qed.

Lemma dispatched_job_runs_wrapper_witness :
  run_job Fixtures.production Fixtures.col_ok CREATE_EXTERNAL_EXPORT
    (arguments_for EXTERNAL_EXPORT Fixtures.survey 7 VNone
       (Some {[ "token" := VNone; "group_delimiter" := VStr "|" ]}))
    (Fixtures.world7 EXTERNAL_EXPORT)
  = invoke Fixtures.production Fixtures.col_ok
      (Call_external (VStr "bob") (VStr "survey") 7 VNone VNone VNone)
      (Fixtures.world7 EXTERNAL_EXPORT).
Proof.
  destruct (dispatched_job_runs_wrapper Fixtures.production Fixtures.col_ok
              EXTERNAL_EXPORT Fixtures.survey 7 VNone
              (Some {[ "token" := VNone; "group_delimiter" := VStr "|" ]})
              CREATE_EXTERNAL_EXPORT (Fixtures.world7 EXTERNAL_EXPORT)
              eq_refl) as (c & Hc & _ & _ & _ & Hrun).
  rewrite Hrun. vm_compute in Hc. injection Hc as <-. reflexivity.
Defined.

Section DispatchModes.

Context (settings : Settings) (col : Collaborators).

(** The dispatch on a queue that is not eager. *)
Lemma create_async_export_deferred (xf : XForm) (t : ExportType)
    (query force_xlsx : value) (options : option kwargs) (w : World)
    (j : job) :
  CELERY_ALWAYS_EAGER settings = false ->
  route t = Some j ->
  let e0 := new_export xf t (store w) in
  let tid := next_task w in
  create_async_export settings col xf t query force_xlsx options w
  = stamped e0 {| result_task_id := tid |}
      {| store := <[id e0 := row e0]> (store w);
         next_task := S tid;
         log := (log w ++ [EvCreate e0])
                ++ [EvSubmit j (arguments_for t xf (id e0) query options)
                      10 tid] |}.
Proof.
  intros Heager Hroute e0 tid.
  rewrite create_async_export_eq. unfold dispatch_with, apply_async.
  rewrite Hroute, Heager. reflexivity.
Qed.

(** The dispatch on an eager queue, given how the job went. *)
Lemma create_async_export_eager (xf : XForm) (t : ExportType)
    (query force_xlsx : value) (options : option kwargs) (w : World)
    (j : job) (rj : Result value) (w2 : World) :
  CELERY_ALWAYS_EAGER settings = true ->
  route t = Some j ->
  let e0 := new_export xf t (store w) in
  let tid := next_task w in
  let result := {| result_task_id := tid |} in
  run_job settings col j (arguments_for t xf (id e0) query options)
    {| store := <[id e0 := row e0]> (store w);
       next_task := S tid;
       log := (log w ++ [EvCreate e0])
              ++ [EvSubmit j (arguments_for t xf (id e0) query options)
                    10 tid] |}
  = (rj, w2) ->
  create_async_export settings col xf t query force_xlsx options w
  = match rj with
    | Raise e =>
        if CELERY_EAGER_PROPAGATES_EXCEPTIONS settings then (Raise e, w2)
        else match store w2 !! id e0 with
             | Some r2 => stamped {| id := id e0; row := r2 |} result w2
             | None => (Raise DoesNotExist, w2)
             end
    | Ok _ =>
        match store w2 !! id e0 with
        | Some r2 => stamped {| id := id e0; row := r2 |} result w2
        | None => (Raise DoesNotExist, w2)
        end
    end.
Proof.
  intros Heager Hroute e0 tid result Hrun.
  rewrite create_async_export_eq. unfold dispatch_with, apply_async.
  rewrite Hroute, Heager. cbv zeta.
  match goal with
  | |- context [run_job settings col j ?a ?w1] =>
      replace (run_job settings col j a w1) with (rj, w2)
        by (rewrite <- Hrun; reflexivity)
  end.
  destruct rj as [v|e]; [reflexivity|].
  destruct (CELERY_EAGER_PROPAGATES_EXCEPTIONS settings); reflexivity.
Qed.

End DispatchModes.

(** X6. On a queue that is not eager, the job a dispatch leaves in the
    queue finds its record when it runs next and calls the generator for
    that record.  The generator is asked for the export type of the record,
    except that a [GDOC_EXPORT] record is generated as [XLS_EXPORT]. *)
Theorem queued_job_calls_generator (settings : Settings)
    (col : Collaborators) (xf : XForm) (t : ExportType)
    (query force_xlsx : value) (options : option kwargs) (w : World)
    (j : job) :
  CELERY_ALWAYS_EAGER settings = false ->
  route t = Some j ->
  let i := new_id (store w) in
  let args := arguments_for t xf i query options in
  let w' :=
    snd (create_async_export settings col xf t query force_xlsx options w)
  in
  exists c rest,
    dispatched_call t xf i query options = Some c
    /\ log (snd (run_job settings col j args w'))
       = log w' ++ EvGenerate (generator_call c) :: rest
    /\ gen_call_type (generator_call c)
       = (if bool_decide (t = GDOC_EXPORT) then XLS_EXPORT else t)
    /\ row_export_type <$> store w' !! i = Some t.
Proof.
  intros Heager Hroute i args w'.
  destruct (run_job_dispatched settings col t xf i query options j w'
              Hroute) as (c & Hc & Hrun).
  assert (store w' !! i
          = Some (row (set_task_id (next_task w)
                         (new_export xf t (store w))))) as Hget.
  { unfold w'.
    rewrite (create_async_export_deferred settings col xf t query
               force_xlsx options w j Heager Hroute).
    unfold stamped; simpl. apply lookup_insert_eq. }
  destruct (invoke_log settings col c w') as (rest & Hlog & _ & Hfirst).
  destruct Hfirst as (rest' & ->).
  { rewrite (dispatched_call_export_id t xf i query options c Hc).
    rewrite Hget. eauto. }
  exists c, rest'. split; [exact Hc|].
  split; [fold args in Hrun; rewrite Hrun; exact Hlog|].
  split.
  - destruct t; try discriminate Hc; injection Hc as <-; reflexivity.
  - rewrite Hget. reflexivity.
Qed.

Lemma queued_job_calls_generator_witness :
  let w' :=
    snd (create_async_export Fixtures.production Fixtures.col_ok
           Fixtures.survey GDOC_EXPORT VNone (VBool false) None
           Fixtures.empty_world) in
  log (snd (run_job Fixtures.production Fixtures.col_ok CREATE_XLS_EXPORT
              (arguments_for GDOC_EXPORT Fixtures.survey 1 VNone None) w'))
  = log w'
    ++ [EvGenerate
          (Generate_export XLS_EXPORT "xlsx" (VStr "bob") (VStr "survey") 1
             VNone (VStr "/") (VBool true) (VBool false))].
Proof.
  intros w'.
  destruct (queued_job_calls_generator Fixtures.production Fixtures.col_ok
              Fixtures.survey GDOC_EXPORT VNone (VBool false) None
              Fixtures.empty_world CREATE_XLS_EXPORT eq_refl eq_refl)
    as (c & rest & Hc & Hlog & _).
  vm_compute in Hc. injection Hc as <-.
  vm_compute. reflexivity.
Defined.

(** X7. On an eager queue the job runs inside the dispatch.  When its
    generator raises, the record is FAILED by the time the dispatcher reads
    it again: if the failure does not reach the dispatcher (the queue keeps
    it in the result, or it is the CSV wrapper's silent "no records" case)
    the dispatch returns that FAILED record stamped with the task id;
    if the queue propagates it, the dispatch raises the generator's
    exception and the record stays FAILED without a task id. *)
Theorem eager_dispatch_generator_fails (settings : Settings)
    (col : Collaborators) (xf : XForm) (t : ExportType)
    (query force_xlsx : value) (options : option kwargs) (w : World)
    (j : job) (c : wrapper_call) (e : exn) (s' : gmap Z ExportRow) :
  CELERY_ALWAYS_EAGER settings = true ->
  route t = Some j ->
  let e0 := new_export xf t (store w) in
  let tid := next_task w in
  dispatched_call t xf (id e0) query options = Some c ->
  generate col (generator_call c) (<[id e0 := row e0]> (store w))
    = (Raise e, s') ->
  let out :=
    create_async_export settings col xf t query force_xlsx options w in
  let failed := set_internal_status FAILED e0 in
  let silent := is_csv c && bool_decide (e = NoRecordsFoundError) in
  (if silent || negb (CELERY_EAGER_PROPAGATES_EXCEPTIONS settings)
   then fst out = Ok (Some (set_task_id tid failed,
                            {| result_task_id := tid |}))
        /\ store (snd out) = <[id e0 := row (set_task_id tid failed)]> s'
   else fst out = Raise e
        /\ store (snd out) = <[id e0 := row failed]> s')
  /\ length (filter is_report (log (snd out)))
     = (length (filter is_report (log w)) + (if silent then 0 else 1))%nat.
Proof.
  intros Heager Hroute e0 tid Hc Hgen out failed silent.
  destruct (run_job_dispatched settings col t xf (id e0) query options j
              {| store := <[id e0 := row e0]> (store w);
                 next_task := S tid;
                 log := (log w ++ [EvCreate e0])
                        ++ [EvSubmit j
                              (arguments_for t xf (id e0) query options)
                              10 tid] |} Hroute)
    as (c' & Hc' & Hrun).
  rewrite Hc in Hc'. injection Hc' as <-.
  pose proof (dispatched_call_export_id _ _ _ _ _ _ Hc) as Hid.
  rewrite (invoke_generator_raises settings col c _ (row e0) s' e) in Hrun;
    [|simpl; rewrite Hid; apply lookup_insert_eq|exact Hgen].
  fold silent in Hrun. unfold out.
  destruct silent.
  - rewrite (create_async_export_eager settings col xf t query force_xlsx
               options w j _ _ Heager Hroute Hrun).
    unfold failed_world; simpl. rewrite Hid, lookup_insert_eq.
    unfold stamped; simpl. rewrite insert_insert_eq.
    split; [split; reflexivity|].
    rewrite !filter_app, !length_app. simpl. lia.
  - rewrite (create_async_export_eager settings col xf t query force_xlsx
               options w j _ _ Heager Hroute Hrun).
    destruct (CELERY_EAGER_PROPAGATES_EXCEPTIONS settings); simpl.
    + unfold failed_world; simpl. rewrite Hid.
      split; [split; reflexivity|].
      rewrite !filter_app, !length_app. simpl. lia.
    + unfold failed_world; simpl. rewrite Hid, lookup_insert_eq.
      unfold stamped; simpl. rewrite insert_insert_eq.
      split; [split; reflexivity|].
      rewrite !filter_app, !length_app. simpl. lia.
Qed.

Lemma eager_dispatch_generator_fails_witness :
  let out :=
    create_async_export Fixtures.testing
      (Fixtures.col_raising (Exception "disk full")) Fixtures.survey
      KML_EXPORT VNone (VBool false) None Fixtures.empty_world in
  fst out
  = Ok (Some ({| id := 1;
                 row := {| row_xform := Fixtures.survey;
                           row_export_type := KML_EXPORT;
                           row_internal_status := FAILED;
                           row_task_id := Some 0%nat |} |},
              {| result_task_id := 0 |})).
Proof.
  intros out.
  destruct (eager_dispatch_generator_fails Fixtures.testing
              (Fixtures.col_raising (Exception "disk full"))
              Fixtures.survey KML_EXPORT VNone (VBool false) None
              Fixtures.empty_world CREATE_KML_EXPORT
              (Call_kml (VStr "bob") (VStr "survey") 1 VNone)
              (Exception "disk full") (<[1 := Fixtures.pending_row
                                               KML_EXPORT]> ∅)
              eq_refl eq_refl eq_refl eq_refl) as [[H _] _].
  exact H.
Defined.

(** X8. On a queue that is not eager the record is stamped before the
    job runs.  When the job later runs and its generator raises, the
    record ends FAILED and still carries the task id the dispatcher gave
    it. *)
Theorem deferred_failure_keeps_task_id (settings : Settings)
    (col : Collaborators) (xf : XForm) (t : ExportType)
    (query force_xlsx : value) (options : option kwargs) (w : World)
    (j : job) (c : wrapper_call) (e : exn) (s' : gmap Z ExportRow) :
  CELERY_ALWAYS_EAGER settings = false ->
  route t = Some j ->
  let e0 := new_export xf t (store w) in
  let tid := next_task w in
  let args := arguments_for t xf (id e0) query options in
  let w' :=
    snd (create_async_export settings col xf t query force_xlsx options w)
  in
  dispatched_call t xf (id e0) query options = Some c ->
  generate col (generator_call c) (store w') = (Raise e, s') ->
  store w' !! id e0 = Some (row (set_task_id tid e0))
  /\ store (snd (run_job settings col j args w')) !! id e0
     = Some {| row_xform := xf; row_export_type := t;
               row_internal_status := FAILED;
               row_task_id := Some tid |}.
Proof.
  intros Heager Hroute e0 tid args w' Hc Hgen.
  assert (store w' !! id e0 = Some (row (set_task_id tid e0))) as Hget.
  { unfold w'.
    rewrite (create_async_export_deferred settings col xf t query
               force_xlsx options w j Heager Hroute).
    unfold stamped; simpl. apply lookup_insert_eq. }
  split; [exact Hget|].
  destruct (run_job_dispatched settings col t xf (id e0) query options j
              w' Hroute) as (c' & Hc' & Hrun).
  rewrite Hc in Hc'. injection Hc' as <-.
  pose proof (dispatched_call_export_id _ _ _ _ _ _ Hc) as Hid.
  unfold args. rewrite Hrun.
  rewrite (invoke_generator_raises settings col c w'
             (row (set_task_id tid e0)) s' e);
    [|rewrite Hid; exact Hget|exact Hgen].
  destruct (is_csv c && bool_decide (e = NoRecordsFoundError));
    unfold failed_world; simpl; rewrite Hid; apply lookup_insert_eq.
Qed.

Lemma deferred_failure_keeps_task_id_witness :
  let col := Fixtures.col_raising NoRecordsFoundError in
  let w' :=
    snd (create_async_export Fixtures.production col Fixtures.survey
           CSV_EXPORT VNone (VBool false) None Fixtures.empty_world) in
  store (snd (run_job Fixtures.production col CREATE_CSV_EXPORT
                (arguments_for CSV_EXPORT Fixtures.survey 1 VNone None) w'))
    !! 1
  = Some {| row_xform := Fixtures.survey; row_export_type := CSV_EXPORT;
            row_internal_status := FAILED; row_task_id := Some 0%nat |}.
Proof.
  intros col w'.
  exact (proj2 (deferred_failure_keeps_task_id Fixtures.production col
                  Fixtures.survey CSV_EXPORT VNone (VBool false) None
                  Fixtures.empty_world CREATE_CSV_EXPORT
                  (Call_csv (VStr "bob") (VStr "survey") 1 VNone (VStr "/")
                     (VBool true) (VBool false))
                  NoRecordsFoundError (store w')
                  eq_refl eq_refl eq_refl eq_refl)).
Defined.

(** X9. The reporter never touches the export table or the queue.  It
    sends its one mail only after every probe call it made has returned;
    when a probe call raises, that exception leaves the reporter and no
    mail is sent. *)
Theorem sync_report_outcomes (col : Collaborators) (w : World) :
  let out := email_mongo_sync_status col w in
  store (snd out) = store w
  /\ next_task (snd out) = next_task w
  /\ exists new_events,
       log (snd out) = log w ++ new_events
       /\ match fst out with
          | Ok v =>
              v = VNone
              /\ exists probes body,
                   new_events
                   = probes ++ [EvMail "Mongo DB sync status" body]
                   /\ forallb is_probe probes = true
          | Raise e =>
              forallb is_probe new_events = true
              /\ (mongo_sync_status col false = Raise e
                  \/ mongo_sync_status col true = Raise e)
          end.
Proof.
  intros out. unfold out.
  destruct (mongo_sync_status col false) as [before_report|e] eqn:Hbefore.
  - rewrite (email_mongo_sync_status_eq col w before_report Hbefore).
    cbv zeta.
    destruct (REMONGO_PATTERN_search before_report).
    + destruct (mongo_sync_status col true) as [after_report|e]; simpl.
      * split; [reflexivity|]. split; [reflexivity|].
        eexists; split; [reflexivity|]. split; [reflexivity|].
        exists [EvProbe false; EvProbe true]. eexists.
        split; reflexivity.
      * split; [reflexivity|]. split; [reflexivity|].
        eexists; split; [reflexivity|]. split; [reflexivity|]. by right.
    + simpl. split; [reflexivity|]. split; [reflexivity|].
      eexists; split; [reflexivity|]. split; [reflexivity|].
      exists [EvProbe false]. eexists. split; reflexivity.
  - unfold email_mongo_sync_status, call_mongo_sync_status. unfold_ops.
    rewrite Hbefore. simpl.
    split; [reflexivity|]. split; [reflexivity|].
    eexists; split; [reflexivity|]. split; [reflexivity|]. by left.
Qed.

(** ** The pattern and decimal counts *)

Lemma pretty_N_go_leading (x : N) (s : string) :
  (0 < x)%N ->
  exists d rest,
    pretty_N_go x s = String d rest /\ in_range "1" "9" d = true.
Proof.
  revert s. induction (N.lt_wf_0 x) as [x _ IH]; intros s Hx.
  rewrite pretty_N_go_step by exact Hx.
  destruct (decide (x < 10)%N) as [Hlt|Hge].
  - rewrite N.div_small, pretty_N_go_0, N.mod_small by exact Hlt.
    exists (pretty_N_char x), s. split; [reflexivity|].
    assert (x = 1 \/ x = 2 \/ x = 3 \/ x = 4 \/ x = 5 \/ x = 6 \/ x = 7
            \/ x = 8 \/ x = 9)%N as Hcases by lia.
    repeat (destruct Hcases as [->|Hcases]; [reflexivity|]).
    subst x. reflexivity.
  - apply IH.
    + by apply N.div_lt.
    + apply N.div_str_pos. lia.
Qed.

(** The decimal form of a nonzero integer: an optional minus sign and a
    first digit that is not 0. *)
Lemma pretty_Z_leading (n : Z) :
  n <> 0 ->
  exists sign d rest,
    pretty n = sign +:+ String d rest
    /\ (sign = "" \/ sign = "-")
    /\ in_range "1" "9" d = true.
Proof.
  intros Hn. destruct n as [|p|p]; [congruence| |].
  - destruct (pretty_N_go_leading (N.pos p) "") as (d & rest & H & Hd);
      [lia|].
    exists "", d, rest. split; [exact H|]. split; [by left|exact Hd].
  - destruct (pretty_N_go_leading (N.pos p) "") as (d & rest & H & Hd);
      [lia|].
    exists "-", d, rest. split; [|split; [by right|exact Hd]].
    change (pretty (Z.neg p)) with ("-" +:+ pretty_N_go (N.pos p) "").
    by rewrite H.
Qed.

(** X10. Synchronisation is called for by every report that gives the
    count, after the words "Total # of records to remongo: ", as a nonzero
    integer in decimal, wherever that line stands in the report; a report
    that is that line alone calls for it exactly when the count is not 0. *)
Theorem remongo_matches_nonzero_count (n : Z) :
  (n <> 0 ->
   forall pre suf,
     REMONGO_PATTERN_search
       (pre +:+ "Total # of records to remongo: " +:+ pretty n +:+ suf)
     = true)
  /\ (REMONGO_PATTERN_search ("Total # of records to remongo: " +:+ pretty n)
      = true <-> n <> 0).
Proof.
  split; [|split].
  - intros Hn pre suf. apply REMONGO_PATTERN_search_spec.
    destruct (pretty_Z_leading n Hn) as (sign & d & rest & -> & Hsign & Hd).
    exists pre, "Total # of records to remongo: ", sign, d, (rest +:+ suf).
    split; [|split; [reflexivity|split; [exact Hsign|exact Hd]]].
    destruct Hsign as [-> | ->]; reflexivity.
  - intros H ->. vm_compute in H. discriminate.
  - intros Hn. apply REMONGO_PATTERN_search_spec.
    destruct (pretty_Z_leading n Hn) as (sign & d & rest & -> & Hsign & Hd).
    exists "", "Total # of records to remongo: ", sign, d, rest.
    split; [reflexivity|]. split; [reflexivity|]. by split.
Qed.

Lemma remongo_matches_nonzero_count_witness :
  REMONGO_PATTERN_search
    ("mysql 12, mongo 54" +:+ "Total # of records to remongo: "
       +:+ pretty (-42) +:+ " done")
  = true.
Proof.
  exact (proj1 (remongo_matches_nonzero_count (-42)) ltac:(discriminate)
           "mysql 12, mongo 54" " done").
Defined.

(** X11. The cleanup the attachment-archive wrapper leaves in a queue that
    is not eager binds to [delete_export]: when it runs next it removes
    the generated export from the table, returning [True] if the export
    was still there and [False] if not, and leaves every other record as
    the generator left it. *)
Theorem queued_cleanup_removes_export (settings : Settings)
    (col : Collaborators) (username id_string : value) (export_id : Z)
    (query : value) (w : World) (r : ExportRow) (gen_export : Export)
    (s' : gmap Z ExportRow) :
  TESTING_MODE settings = false ->
  CELERY_ALWAYS_EAGER settings = false ->
  store w !! export_id = Some r ->
  generate col
    (Generate_attachments_zip_export ZIP_EXPORT "zip" username id_string
       export_id query) (store w) = (Ok gen_export, s') ->
  let w' :=
    snd (create_zip_export settings col username id_string export_id
           query w) in
  let kw : kwargs := {[ "export_id" := VInt (id gen_export) ]} in
  let ran := run_job settings col DELETE_EXPORT kw w' in
  last (log w')
  = Some (EvSubmit DELETE_EXPORT kw (ZIP_EXPORT_COUNTDOWN settings)
            (next_task w))
  /\ fst ran = Ok (VBool (bool_decide (is_Some (s' !! id gen_export))))
  /\ store (snd ran) = delete (id gen_export) s'.
Proof.
  intros Htest Heager Hget Hgen w' kw ran.
  assert (w' = {| store := s'; next_task := S (next_task w);
                  log := log w
                         ++ [EvGenerate
                               (Generate_attachments_zip_export ZIP_EXPORT
                                  "zip" username id_string export_id query);
                             EvSubmit DELETE_EXPORT kw
                               (ZIP_EXPORT_COUNTDOWN settings)
                               (next_task w)] |}) as Hw'.
  { unfold w'.
    change (create_zip_export settings col username id_string export_id
              query w)
      with (invoke settings col
              (Call_zip username id_string export_id query) w).
    rewrite (invoke_generator_succeeds settings col
               (Call_zip username id_string export_id query) w r gen_export
               s' Hget Hgen).
    unfold success_world, cleanup_events. rewrite Htest, Heager.
    reflexivity. }
  split.
  { rewrite Hw'. simpl.
    change [EvGenerate
              (Generate_attachments_zip_export ZIP_EXPORT "zip" username
                 id_string export_id query);
            EvSubmit DELETE_EXPORT kw (ZIP_EXPORT_COUNTDOWN settings)
              (next_task w)]
      with ([EvGenerate
               (Generate_attachments_zip_export ZIP_EXPORT "zip" username
                  id_string export_id query)]
            ++ [EvSubmit DELETE_EXPORT kw (ZIP_EXPORT_COUNTDOWN settings)
                  (next_task w)]).
    rewrite app_assoc. apply last_snoc. }
  unfold ran. simpl. unfold kw.
  rewrite run_delete_export_singleton, delete_export_eq, Hw'. simpl.
  destruct (s' !! id gen_export) as [r'|] eqn:E; simpl.
  - split; reflexivity.
  - split; [reflexivity|]. symmetry. by apply delete_id.
Qed.

Lemma queued_cleanup_removes_export_witness :
  let w' :=
    snd (create_zip_export Fixtures.production Fixtures.col_ok (VStr "bob")
           (VStr "survey") 7 VNone (Fixtures.world7 ZIP_EXPORT)) in
  let ran :=
    run_job Fixtures.production Fixtures.col_ok DELETE_EXPORT
      {[ "export_id" := VInt 7 ]} w' in
  fst ran = Ok (VBool true) /\ store (snd ran) = ∅.
Proof.
  intros w' ran.
  destruct (queued_cleanup_removes_export Fixtures.production
              Fixtures.col_ok (VStr "bob") (VStr "survey") 7 VNone
              (Fixtures.world7 ZIP_EXPORT)
              (Fixtures.pending_row ZIP_EXPORT)
              {| id := 7; row := Fixtures.pending_row ZIP_EXPORT |}
              (store (Fixtures.world7 ZIP_EXPORT))
              eq_refl eq_refl eq_refl eq_refl) as (_ & H1 & H2).
  split; [exact H1|].
  etransitivity; [exact H2|]. vm_compute. reflexivity.
Defined.

(** X12. A dispatch whose job does not run inside it (the queue is not
    eager, or the export type is not supported) adds its one record under
    a key that was free and leaves every record that was already in the
    table as it was. *)
Theorem dispatch_leaves_other_records (settings : Settings)
    (col : Collaborators) (xf : XForm) (t : ExportType)
    (query force_xlsx : value) (options : option kwargs) (w : World) :
  CELERY_ALWAYS_EAGER settings = false \/ supported t = false ->
  let out :=
    create_async_export settings col xf t query force_xlsx options w in
  store w !! new_id (store w) = None
  /\ is_Some (store (snd out) !! new_id (store w))
  /\ (forall k, k <> new_id (store w) ->
        store (snd out) !! k = store w !! k)
  /\ size (store (snd out)) = S (size (store w)).
Proof.
  intros Hmode out.
  split; [apply new_id_fresh|].
  assert (exists r, store (snd out) = <[new_id (store w) := r]> (store w))
    as (r & Hstore).
  { unfold out. destruct (route t) as [j|] eqn:Hroute.
    - destruct Hmode as [Heager|Hsup];
        [|unfold supported in Hsup; rewrite Hroute in Hsup; discriminate].
      rewrite (create_async_export_deferred settings col xf t query
                 force_xlsx options w j Heager Hroute).
      unfold stamped; simpl. rewrite insert_insert_eq. eauto.
    - rewrite create_async_export_eq. unfold dispatch_with.
      rewrite Hroute. unfold created_world; simpl. eauto. }
  rewrite Hstore. split; [|split].
  - rewrite lookup_insert_eq. eauto.
  - intros k Hk. by apply lookup_insert_ne.
  - apply map_size_insert_None, new_id_fresh.
Qed.

Lemma dispatch_leaves_other_records_witness :
  let out :=
    create_async_export Fixtures.production Fixtures.col_ok Fixtures.survey
      CSV_EXPORT VNone (VBool false) None (Fixtures.world7 KML_EXPORT) in
  store (snd out) !! 7 = Some (Fixtures.pending_row KML_EXPORT)
  /\ size (store (snd out)) = 2%nat.
Proof.
  intros out.
  destruct (dispatch_leaves_other_records Fixtures.production
              Fixtures.col_ok Fixtures.survey CSV_EXPORT VNone (VBool false)
              None (Fixtures.world7 KML_EXPORT) (or_introl eq_refl))
    as (_ & _ & Hother & Hsize).
  split.
  - etransitivity;
      [exact (Hother 7 ltac:(vm_compute; discriminate))|reflexivity].
  - exact Hsize.
Defined.

(** X13. On an eager queue the dispatcher reads the record again after
    the job has run, so what it returns is the record as the generator
    left it, stamped with the task id.  This holds whenever the job's
    generator returns and the wrapper queues no cleanup (any wrapper but
    the attachment-archive one, or test mode). *)
Theorem eager_dispatch_returns_generated (settings : Settings)
    (col : Collaborators) (xf : XForm) (t : ExportType)
    (query force_xlsx : value) (options : option kwargs) (w : World)
    (j : job) (c : wrapper_call) (gen_export : Export)
    (s' : gmap Z ExportRow) (r2 : ExportRow) :
  CELERY_ALWAYS_EAGER settings = true ->
  route t = Some j ->
  let e0 := new_export xf t (store w) in
  let tid := next_task w in
  dispatched_call t xf (id e0) query options = Some c ->
  is_zip c = false \/ TESTING_MODE settings = true ->
  generate col (generator_call c) (<[id e0 := row e0]> (store w))
    = (Ok gen_export, s') ->
  s' !! id e0 = Some r2 ->
  let out :=
    create_async_export settings col xf t query force_xlsx options w in
  let export := set_task_id tid {| id := id e0; row := r2 |} in
  fst out = Ok (Some (export, {| result_task_id := tid |}))
  /\ store (snd out) = <[id e0 := row export]> s'
  /\ internal_status export = row_internal_status r2.
Proof.
  intros Heager Hroute e0 tid Hc Hmode Hgen Hr2 out export.
  destruct (run_job_dispatched settings col t xf (id e0) query options j
              {| store := <[id e0 := row e0]> (store w);
                 next_task := S tid;
                 log := (log w ++ [EvCreate e0])
                        ++ [EvSubmit j
                              (arguments_for t xf (id e0) query options)
                              10 tid] |} Hroute)
    as (c' & Hc' & Hrun).
  rewrite Hc in Hc'. injection Hc' as <-.
  pose proof (dispatched_call_export_id _ _ _ _ _ _ Hc) as Hid.
  rewrite (invoke_generator_succeeds settings col c _ (row e0) gen_export
             s') in Hrun;
    [|simpl; rewrite Hid; apply lookup_insert_eq|exact Hgen].
  unfold out.
  rewrite (create_async_export_eager settings col xf t query force_xlsx
             options w j _ _ Heager Hroute Hrun).
  assert (store (success_world settings c gen_export s'
                   {| store := <[id e0 := row e0]> (store w);
                      next_task := S tid;
                      log := (log w ++ [EvCreate e0])
                             ++ [EvSubmit j
                                   (arguments_for t xf (id e0) query
                                      options) 10 tid] |}) = s') as Hs.
  { unfold success_world. destruct c; try reflexivity.
    destruct Hmode as [Hz|Ht]; [discriminate Hz|].
    simpl. rewrite Ht. reflexivity. }
  fold e0 tid. rewrite Hs, Hr2. unfold stamped. cbn [fst snd store].
  rewrite Hs. repeat split; reflexivity.
Qed.

Lemma eager_dispatch_returns_generated_witness :
  fst (create_async_export Fixtures.testing Fixtures.col_ok Fixtures.survey
         ZIP_EXPORT VNone (VBool false) None Fixtures.empty_world)
  = Ok (Some ({| id := 1;
                 row := {| row_xform := Fixtures.survey;
                           row_export_type := ZIP_EXPORT;
                           row_internal_status := PENDING;
                           row_task_id := Some 0%nat |} |},
              {| result_task_id := 0 |})).
Proof.
  exact (proj1
    (eager_dispatch_returns_generated Fixtures.testing Fixtures.col_ok
       Fixtures.survey ZIP_EXPORT VNone (VBool false) None
       Fixtures.empty_world CREATE_ZIP_EXPORT
       (Call_zip (VStr "bob") (VStr "survey") 1 VNone)
       {| id := 1; row := Fixtures.pending_row ZIP_EXPORT |}
       (<[1 := Fixtures.pending_row ZIP_EXPORT]> ∅)
       (Fixtures.pending_row ZIP_EXPORT)
       eq_refl eq_refl eq_refl (or_intror eq_refl) eq_refl eq_refl)).
Defined.

(** X14. On an eager queue outside test mode the attachment-archive
    wrapper's cleanup runs as soon as it is submitted.  When the generator
    hands back the dispatched record itself, that record is deleted before
    the dispatcher reads it again: the dispatch raises [DoesNotExist] and
    the record is no longer in the table. *)
Theorem eager_zip_dispatch_loses_record (settings : Settings)
    (col : Collaborators) (xf : XForm) (query force_xlsx : value)
    (options : option kwargs) (w : World) (gen_export : Export)
    (s' : gmap Z ExportRow) :
  CELERY_ALWAYS_EAGER settings = true ->
  TESTING_MODE settings = false ->
  let e0 := new_export xf ZIP_EXPORT (store w) in
  generate col
    (Generate_attachments_zip_export ZIP_EXPORT "zip"
       (VStr (username (user xf))) (VStr (id_string xf)) (id e0) query)
    (<[id e0 := row e0]> (store w)) = (Ok gen_export, s') ->
  id gen_export = id e0 ->
  let out :=
    create_async_export settings col xf ZIP_EXPORT query force_xlsx options
      w in
  fst out = Raise DoesNotExist
  /\ store (snd out) = delete (id e0) s'
  /\ store (snd out) !! id e0 = None.
Proof.
  intros Heager Htest e0 Hgen Hgid out.
  destruct (run_job_dispatched settings col ZIP_EXPORT xf (id e0) query
              options CREATE_ZIP_EXPORT
              {| store := <[id e0 := row e0]> (store w);
                 next_task := S (next_task w);
                 log := (log w ++ [EvCreate e0])
                        ++ [EvSubmit CREATE_ZIP_EXPORT
                              (arguments_for ZIP_EXPORT xf (id e0) query
                                 options) 10 (next_task w)] |} eq_refl)
    as (c & Hc & Hrun).
  injection Hc as <-.
  rewrite (invoke_generator_succeeds settings col _ _ (row e0) gen_export
             s') in Hrun;
    [|apply lookup_insert_eq|exact Hgen].
  unfold out.
  rewrite (create_async_export_eager settings col xf ZIP_EXPORT query
             force_xlsx options w CREATE_ZIP_EXPORT _ _ Heager eq_refl
             Hrun).
  unfold success_world; simpl. rewrite Htest, Heager, Hgid. simpl.
  rewrite lookup_delete_eq. simpl.
  repeat split; try reflexivity. apply lookup_delete_eq.
Qed.

Lemma eager_zip_dispatch_loses_record_witness :
  let out :=
    create_async_export Fixtures.eager Fixtures.col_ok Fixtures.survey
      ZIP_EXPORT VNone (VBool false) None Fixtures.empty_world in
  fst out = Raise DoesNotExist /\ store (snd out) !! 1 = None.
Proof.
  intros out.
  destruct (eager_zip_dispatch_loses_record Fixtures.eager Fixtures.col_ok
              Fixtures.survey VNone (VBool false) None Fixtures.empty_world
              {| id := 1; row := Fixtures.pending_row ZIP_EXPORT |}
              (<[1 := Fixtures.pending_row ZIP_EXPORT]> ∅)
              eq_refl eq_refl eq_refl eq_refl) as (H1 & _ & H3).
  split; [exact H1|exact H3].
Defined.
